(** * Voicepal thought explorer: the resilient client and the session engine

    A shallow embedding of [transcribe_audio.py]: the two Gemini client
    functions with their retry loop, and the conversation and debate state
    kept by [VoicepalApp], followed by the properties of the specification
    that were checked against them. *)

From Stdlib Require Import List String Ascii ZArith Bool Arith Lia DecimalString.
Import ListNotations.
Open Scope string_scope.
Open Scope list_scope.
Set Warnings "-register-all".

(** ** Python values *)

(** The values [json.loads] and [response.json()] produce.  [JNull] is
    Python's [None].  A number is kept as an integer: the code only ever
    tests a number for truth (non-zero). *)
Inductive json : Type :=
  | JNull
  | JBool (b : bool)
  | JNum (n : Z)
  | JStr (s : string)
  | JArr (items : list json)
  | JObj (fields : list (string * json)).

(** Exceptions the modelled code can raise.  [ConnectionError] stands for
    every [requests.exceptions.RequestException] raised by [requests.post]
    itself, [HTTPError] for the one raised by [raise_for_status]. *)
Inductive exn : Type :=
  | ValueError (msg : string)
  | ConnectionError
  | HTTPError
  | JSONDecodeError
  | AttributeError
  | IndexError
  | KeyError
  | TypeError
  | NameError.

Inductive result (A : Type) : Type :=
  | Ret (a : A)
  | Raise (e : exn).
Arguments Ret {A} a.
Arguments Raise {A} e.

Definition bind {A B : Type} (r : result A) (k : A -> result B) : result B :=
  match r with
  | Ret a => k a
  | Raise e => Raise e
  end.

Notation "x <- r ;; k" := (bind r (fun x => k))
  (at level 61, r at next level, right associativity).

(** [bool(v)], the test behind [if v:] and [not v]. *)
Definition truthy (v : json) : bool :=
  match v with
  | JNull => false
  | JBool b => b
  | JNum n => negb (n =? 0)%Z
  | JStr s => negb (s =? "")
  | JArr items => match items with [] => false | _ :: _ => true end
  | JObj fields => match fields with [] => false | _ :: _ => true end
  end.

Fixpoint dict_get (fields : list (string * json)) (key : string) (default : json) : json :=
  match fields with
  | [] => default
  | (k, v) :: rest => if k =? key then v else dict_get rest key default
  end.

(** [v.get(key, default)]: only a dict has the method. *)
Definition py_get (v : json) (key : string) (default : json) : result json :=
  match v with
  | JObj fields => Ret (dict_get fields key default)
  | _ => Raise AttributeError
  end.

(** [v[0]]. *)
Definition py_item0 (v : json) : result json :=
  match v with
  | JArr (x :: _) => Ret x
  | JArr [] => Raise IndexError
  | JStr (String c _) => Ret (JStr (String c ""))
  | JStr "" => Raise IndexError
  | JObj _ => Raise KeyError
  | JNull | JBool _ | JNum _ => Raise TypeError
  end.

Fixpoint chars (s : string) : list json :=
  match s with
  | "" => []
  | String c rest => JStr (String c "") :: chars rest
  end.

(** What [for x in v] runs through. *)
Definition py_iter (v : json) : result (list json) :=
  match v with
  | JArr items => Ret items
  | JStr s => Ret (chars s)
  | JObj fields => Ret (map (fun kv => JStr (fst kv)) fields)
  | JNull | JBool _ | JNum _ => Raise TypeError
  end.

(** [a == b] on values; only used against a string constant. *)
Definition eq_str (v : json) (s : string) : bool :=
  match v with
  | JStr t => t =? s
  | _ => false
  end.

(** [str.strip()] on ASCII text, where the whitespace it removes is the
    characters 9 to 13, 28 to 31 and the blank.  On other text
    [str.strip()] removes more, the no-break space for one, which [strip]
    leaves in place. *)
Definition is_space (c : ascii) : bool :=
  let n := nat_of_ascii c in
  (Nat.leb 9 n && Nat.leb n 13) || (Nat.leb 28 n && Nat.leb n 32).

Fixpoint lstrip (s : string) : string :=
  match s with
  | "" => ""
  | String c rest => if is_space c then lstrip rest else s
  end.

Fixpoint rstrip (s : string) : string :=
  match s with
  | "" => ""
  | String c rest =>
      let rest' := rstrip rest in
      if is_space c && (rest' =? "") then "" else String c rest'
  end.

Definition strip (s : string) : string := rstrip (lstrip s).

(** ** The network and the clock *)

(** What [requests.post] hands back: the status code and what
    [response.json()] gives on the body, [None] when the body is not JSON
    and [response.json()] raises its [JSONDecodeError]. *)
Record response : Type := {
  status_code : Z;
  json_body : option json
}.

Inductive io_event : Type :=
  | Posted
  | Slept (seconds : nat).

(** The outside world: [net k] is the fate of the [k]-th request ever sent
    ([None]: [requests.post] raises), [sent] counts the requests so far and
    [trace] records requests and sleeps in the order they happen. *)
Record world : Type := {
  net : nat -> option response;
  sent : nat;
  trace : list io_event
}.

Definition requests_post (w : world) : result response * world :=
  (match net w (sent w) with
   | Some r => Ret r
   | None => Raise ConnectionError
   end,
   {| net := net w; sent := S (sent w); trace := trace w ++ [Posted] |}).

(** [time.sleep(seconds)] for a length it takes.  It raises
    [OverflowError] for a length that does not fit 64 bits of nanoseconds;
    the first power of two it refuses is [2 ^ 34], the sleep of attempt
    34. *)
Definition time_sleep (seconds : nat) (w : world) : world :=
  {| net := net w; sent := sent w; trace := trace w ++ [Slept seconds] |}.

(** [response.raise_for_status()]: 4xx and 5xx raise. *)
Definition raise_for_status (r : response) : result unit :=
  if ((400 <=? status_code r) && (status_code r <? 600))%Z
  then Raise HTTPError else Ret tt.

Definition response_json (r : response) : result json :=
  match json_body r with
  | Some body => Ret body
  | None => Raise JSONDecodeError
  end.

(** ** Configuration *)

Definition API_KEY : string := "".

(** The schema sent with a structured request.  The array of questions has
    an item type and a description, and no bound on its length. *)
Definition RESPONSE_SCHEMA : json :=
  JObj [
    ("type", JStr "OBJECT");
    ("properties", JObj [
      ("corrected_text", JObj [
        ("type", JStr "STRING");
        ("description", JStr "The cleaned, grammatically correct, and formal English version of the user's raw speech transcription.")]);
      ("challenge_questions", JObj [
        ("type", JStr "ARRAY");
        ("description", JStr "A list of exactly three thought-provoking questions designed to challenge the main assumption or explore the core idea of the corrected text further.");
        ("items", JObj [("type", JStr "STRING")])])]);
    ("required", JArr [JStr "corrected_text"; JStr "challenge_questions"]);
    ("propertyOrdering", JArr [JStr "corrected_text"; JStr "challenge_questions"])
  ].

(** ** The client *)

(** The handler [except (RequestException, JSONDecodeError)]. *)
Definition caught (e : exn) : bool :=
  match e with
  | ConnectionError | HTTPError | JSONDecodeError => true
  | _ => false
  end.

(** [except ValueError]: [JSONDecodeError] is a subclass of it. *)
Definition is_ValueError (e : exn) : bool :=
  match e with
  | ValueError _ | JSONDecodeError => true
  | _ => false
  end.

(** [body.get('candidates', [{}])[0].get('content', {}).get('parts', [{}])[0].get('text')] *)
Definition extract_text (body : json) : result json :=
  candidates <- py_get body "candidates" (JArr [JObj []]) ;;
  candidate <- py_item0 candidates ;;
  content <- py_get candidate "content" (JObj []) ;;
  parts <- py_get content "parts" (JArr [JObj []]) ;;
  part <- py_item0 parts ;;
  py_get part "text" JNull.

(** The loop both client functions are written with:
    [for attempt in range(max_retries): try: BODY
     except (RequestException, JSONDecodeError): time.sleep(2 ** attempt)]
    followed by [return None].  A [BODY] that returns ends the call, an
    exception the handler does not list leaves it. *)
Fixpoint retry_loop (body : world -> result json * world)
    (attempts : list nat) (w : world) : result json * world :=
  match attempts with
  | [] => (Ret JNull, w)
  | attempt :: rest =>
      match body w with
      | (Ret v, w1) => (Ret v, w1)
      | (Raise e, w1) =>
          if caught e
          then retry_loop body rest (time_sleep (2 ^ attempt) w1)
          else (Raise e, w1)
      end
  end.

(** One pass through a [try] block: the request goes out, and [reply]
    is what the rest of the block makes of its outcome. *)
Definition attempt (reply : result response -> result json) (w : world)
    : result json * world :=
  let (posted, w1) := requests_post w in (reply posted, w1).

Section Client.

(** [json.loads] on a string: the decoded value, [None] when it raises
    [JSONDecodeError]. *)
Variable json_loads : string -> option json.

(** The key the functions read from the module global [API_KEY]. *)
Variable api_key : string.

(** [json.loads(v)]: anything but text is a [TypeError]. *)
Definition py_json_loads (v : json) : result json :=
  match v with
  | JStr s =>
      match json_loads s with
      | Some decoded => Ret decoded
      | None => Raise JSONDecodeError
      end
  | _ => Raise TypeError
  end.

(** What the [try] block of [call_gemini_api_structured] makes of the
    outcome of [requests.post]. *)
Definition structured_reply (posted : result response) : result json :=
  resp <- posted ;;
  _ <- raise_for_status resp ;;
  body <- response_json resp ;;
  json_text <- extract_text body ;;
  if truthy json_text then py_json_loads json_text else Ret JNull.

Definition structured_try : world -> result json * world :=
  attempt structured_reply.

(** The request itself (text, instruction, schema) has no part in the
    control flow and is not modelled: [net] answers whatever is sent. *)
Definition call_gemini_api_structured (max_retries : nat) (w : world)
    : result json * world :=
  if negb (truthy (JStr api_key))
  then (Raise (ValueError "API Key is missing."), w)
  else retry_loop structured_try (seq 0 max_retries) w.

(** The [try] block of [call_gemini_api_debate]. *)
Definition debate_reply (posted : result response) : result json :=
  resp <- posted ;;
  _ <- raise_for_status resp ;;
  body <- response_json resp ;;
  extract_text body.

Definition debate_try : world -> result json * world :=
  attempt debate_reply.

Definition call_gemini_api_debate (max_retries : nat) (w : world)
    : result json * world :=
  if negb (truthy (JStr api_key))
  then (Raise (ValueError "API Key is missing."), w)
  else retry_loop debate_try (seq 0 max_retries) w.

End Client.

(** ** The application state *)

(** One confirmed step, the dict [confirm_focus] appends. *)
Record history_item : Type := {
  step : nat;
  thought : json;
  focus_question : json
}.

Inductive role : Type := user | assistant.

(** One entry of [debate_history]. *)
Record turn : Type := {
  turn_role : role;
  turn_text : json
}.

Inductive gui_mode : Type := GUIDED | DEBATE.

Inductive tk_state : Type := NORMAL | DISABLED.

(** The function the Process button is bound to. *)
Inductive process_cmd : Type := ProcessInput | SendRebuttal.

(** The function the Debate button is bound to. *)
Inductive debate_cmd : Type := StartDebate | EndDebate.

(** The target of a worker thread. *)
Inductive job : Type :=
  | JobThought (raw_text : string)
  | JobBlog
  | JobDebate.

(** The fields of [VoicepalApp] that carry the conversation, and of its
    widgets what decides which function a click runs: the text of the
    input box, the texts of the question cards, the commands of the two
    re-bound buttons, the state last given to [set_buttons_state], and the
    worker thread that has been started and has not finished. *)
Record VoicepalApp : Type := {
  selected_question : json;
  current_step_data : json;
  conversation_history : list history_item;
  current_step : nat;
  is_debating : bool;
  debate_history : list turn;
  question_cards : list json;
  input_text : string;
  process_command : process_cmd;
  debate_command : debate_cmd;
  buttons : tk_state;
  thread : option job
}.

Definition with_selected_question (v : json) (s : VoicepalApp) : VoicepalApp :=
  {| selected_question := v; current_step_data := current_step_data s;
     conversation_history := conversation_history s; current_step := current_step s;
     is_debating := is_debating s; debate_history := debate_history s;
     question_cards := question_cards s; input_text := input_text s;
     process_command := process_command s; debate_command := debate_command s;
     buttons := buttons s; thread := thread s |}.

Definition with_current_step_data (v : json) (s : VoicepalApp) : VoicepalApp :=
  {| selected_question := selected_question s; current_step_data := v;
     conversation_history := conversation_history s; current_step := current_step s;
     is_debating := is_debating s; debate_history := debate_history s;
     question_cards := question_cards s; input_text := input_text s;
     process_command := process_command s; debate_command := debate_command s;
     buttons := buttons s; thread := thread s |}.

Definition with_conversation_history (v : list history_item) (s : VoicepalApp) : VoicepalApp :=
  {| selected_question := selected_question s; current_step_data := current_step_data s;
     conversation_history := v; current_step := current_step s;
     is_debating := is_debating s; debate_history := debate_history s;
     question_cards := question_cards s; input_text := input_text s;
     process_command := process_command s; debate_command := debate_command s;
     buttons := buttons s; thread := thread s |}.

Definition with_current_step (v : nat) (s : VoicepalApp) : VoicepalApp :=
  {| selected_question := selected_question s; current_step_data := current_step_data s;
     conversation_history := conversation_history s; current_step := v;
     is_debating := is_debating s; debate_history := debate_history s;
     question_cards := question_cards s; input_text := input_text s;
     process_command := process_command s; debate_command := debate_command s;
     buttons := buttons s; thread := thread s |}.

Definition with_is_debating (v : bool) (s : VoicepalApp) : VoicepalApp :=
  {| selected_question := selected_question s; current_step_data := current_step_data s;
     conversation_history := conversation_history s; current_step := current_step s;
     is_debating := v; debate_history := debate_history s;
     question_cards := question_cards s; input_text := input_text s;
     process_command := process_command s; debate_command := debate_command s;
     buttons := buttons s; thread := thread s |}.

Definition with_debate_history (v : list turn) (s : VoicepalApp) : VoicepalApp :=
  {| selected_question := selected_question s; current_step_data := current_step_data s;
     conversation_history := conversation_history s; current_step := current_step s;
     is_debating := is_debating s; debate_history := v;
     question_cards := question_cards s; input_text := input_text s;
     process_command := process_command s; debate_command := debate_command s;
     buttons := buttons s; thread := thread s |}.

Definition with_question_cards (v : list json) (s : VoicepalApp) : VoicepalApp :=
  {| selected_question := selected_question s; current_step_data := current_step_data s;
     conversation_history := conversation_history s; current_step := current_step s;
     is_debating := is_debating s; debate_history := debate_history s;
     question_cards := v; input_text := input_text s;
     process_command := process_command s; debate_command := debate_command s;
     buttons := buttons s; thread := thread s |}.

Definition with_input_text (v : string) (s : VoicepalApp) : VoicepalApp :=
  {| selected_question := selected_question s; current_step_data := current_step_data s;
     conversation_history := conversation_history s; current_step := current_step s;
     is_debating := is_debating s; debate_history := debate_history s;
     question_cards := question_cards s; input_text := v;
     process_command := process_command s; debate_command := debate_command s;
     buttons := buttons s; thread := thread s |}.

Definition with_process_command (v : process_cmd) (s : VoicepalApp) : VoicepalApp :=
  {| selected_question := selected_question s; current_step_data := current_step_data s;
     conversation_history := conversation_history s; current_step := current_step s;
     is_debating := is_debating s; debate_history := debate_history s;
     question_cards := question_cards s; input_text := input_text s;
     process_command := v; debate_command := debate_command s;
     buttons := buttons s; thread := thread s |}.

Definition with_debate_command (v : debate_cmd) (s : VoicepalApp) : VoicepalApp :=
  {| selected_question := selected_question s; current_step_data := current_step_data s;
     conversation_history := conversation_history s; current_step := current_step s;
     is_debating := is_debating s; debate_history := debate_history s;
     question_cards := question_cards s; input_text := input_text s;
     process_command := process_command s; debate_command := v;
     buttons := buttons s; thread := thread s |}.

Definition with_buttons (v : tk_state) (s : VoicepalApp) : VoicepalApp :=
  {| selected_question := selected_question s; current_step_data := current_step_data s;
     conversation_history := conversation_history s; current_step := current_step s;
     is_debating := is_debating s; debate_history := debate_history s;
     question_cards := question_cards s; input_text := input_text s;
     process_command := process_command s; debate_command := debate_command s;
     buttons := v; thread := thread s |}.

Definition with_thread (v : option job) (s : VoicepalApp) : VoicepalApp :=
  {| selected_question := selected_question s; current_step_data := current_step_data s;
     conversation_history := conversation_history s; current_step := current_step s;
     is_debating := is_debating s; debate_history := debate_history s;
     question_cards := question_cards s; input_text := input_text s;
     process_command := process_command s; debate_command := debate_command s;
     buttons := buttons s; thread := v |}.

(** The state [__init__] leaves. *)
Definition init : VoicepalApp :=
  {| selected_question := JNull;
     current_step_data := JNull;
     conversation_history := [];
     current_step := 1;
     is_debating := false;
     debate_history := [];
     question_cards := [];
     input_text := "I think, uh, maybe all people should like, you know, work less time and be happier then. I want to talk more about this concept.";
     process_command := ProcessInput;
     debate_command := StartDebate;
     buttons := NORMAL;
     thread := None |}.

(** What a handler or a worker shows for it: nothing, a
    [messagebox.showwarning] or [messagebox.showerror] with its title, or
    an exception that leaves it. *)
Inductive outcome : Type :=
  | Done
  | Warned (title : string)
  | Errored (title : string)
  | Crashed (e : exn).

(** [self.input_text.get(1.0, tk.END)]: the text with the newline Tk keeps
    at the end of a text widget. *)
Definition input_get (s : VoicepalApp) : string := String.append (input_text s) (String "010" "").

(** [set_buttons_state]: one state for the Process, Confirm, Blog and
    Debate buttons. *)
Definition set_buttons_state (state : tk_state) (s : VoicepalApp) : VoicepalApp :=
  with_buttons state s.

Definition start_thread (j : job) (s : VoicepalApp) : VoicepalApp := with_thread (Some j) s.

(** ** Handlers that run on the main thread *)

(** [set_gui_mode]: switches [is_debating] and re-binds the two buttons;
    entering the debate empties [debate_history], returning to the guided
    mode ends with [create_question_cards([])]. *)
Definition set_gui_mode (mode : gui_mode) (s : VoicepalApp) : VoicepalApp :=
  match mode with
  | GUIDED =>
      with_selected_question JNull
        (with_question_cards []
          (with_debate_command StartDebate
            (with_process_command ProcessInput
              (with_is_debating false s))))
  | DEBATE =>
      with_debate_command EndDebate
        (with_process_command SendRebuttal
          (with_debate_history []
            (with_is_debating true s)))
  end.

(** [create_question_cards]: the old cards and the selection go first,
    then one card per item of [questions]. *)
Definition create_question_cards (questions : json) (s : VoicepalApp) : outcome * VoicepalApp :=
  let s1 := with_selected_question JNull (with_question_cards [] s) in
  match py_iter questions with
  | Raise e => (Crashed e, s1)
  | Ret items => (Done, with_question_cards items s1)
  end.

(** [select_question], the click on a card. *)
Definition select_question (question_text : json) (s : VoicepalApp) : VoicepalApp :=
  with_selected_question question_text s.

Definition confirm_focus (s : VoicepalApp) : outcome * VoicepalApp :=
  if negb (truthy (selected_question s)) || negb (truthy (current_step_data s))
  then (Warned "Incomplete Data", s)
  else
    match py_get (current_step_data s) "corrected_text" (JStr "N/A") with
    | Raise e => (Crashed e, s)
    | Ret corrected =>
        let item := {| step := current_step s;
                       thought := corrected;
                       focus_question := selected_question s |} in
        let s1 := with_conversation_history (conversation_history s ++ [item]) s in
        let s2 := with_current_step (current_step s1 + 1) s1 in
        let s3 := with_input_text "Enter your response here..." s2 in
        let s4 := with_question_cards [] s3 in
        (Done, with_current_step_data JNull (with_selected_question JNull s4))
    end.

(** [x.get("corrected_text") if x else None] *)
Definition corrected_text_or_none (x : json) (default : json) : result json :=
  if truthy x then py_get x "corrected_text" default else Ret JNull.

Definition generate_blog_post_threaded (s : VoicepalApp) : outcome * VoicepalApp :=
  match corrected_text_or_none (current_step_data s) JNull with
  | Raise e => (Crashed e, s)
  | Ret last_thought =>
      if match conversation_history s with [] => true | _ :: _ => false end
         && negb (truthy last_thought)
      then (Warned "No History", s)
      else (Done, start_thread JobBlog (set_buttons_state DISABLED s))
  end.

Definition send_rebuttal_threaded (s : VoicepalApp) : outcome * VoicepalApp :=
  let user_rebuttal := strip (input_get s) in
  if Nat.ltb 1 (List.length (debate_history s))
     && ((user_rebuttal =? "") || (user_rebuttal =? "Enter your counter-argument here..."))
  then (Warned "Missing Rebuttal", s)
  else
    let s1 :=
      if Nat.ltb 1 (List.length (debate_history s))
      then with_debate_history
             (debate_history s ++ [{| turn_role := user; turn_text := JStr user_rebuttal |}]) s
      else s in
    let s2 := set_buttons_state DISABLED s1 in
    let s3 := with_input_text "" s2 in
    (Done, start_thread JobDebate s3).

Definition start_debate_mode (s : VoicepalApp) : outcome * VoicepalApp :=
  match corrected_text_or_none (current_step_data s) JNull with
  | Raise e => (Crashed e, s)
  | Ret initial_argument =>
      if negb (truthy initial_argument) || eq_str initial_argument "N/A"
      then (Warned "No Argument", s)
      else
        let s1 := set_gui_mode DEBATE s in
        let s2 := with_debate_history
                    (debate_history s1 ++ [{| turn_role := user; turn_text := initial_argument |}]) s1 in
        let s3 := with_input_text "Enter your counter-argument here..." s2 in
        (Done, snd (send_rebuttal_threaded s3))
  end.

Definition end_debate (s : VoicepalApp) : outcome * VoicepalApp :=
  let s1 := set_gui_mode GUIDED s in
  let s2 := with_debate_history [] s1 in
  let s3 := with_current_step 1 s2 in
  let s4 := with_conversation_history [] s3 in
  let s5 := with_current_step_data JNull s4 in
  (Done, with_input_text "Start a new thought here..." s5).

Definition process_input_threaded (s : VoicepalApp) : outcome * VoicepalApp :=
  let raw_text := strip (input_get s) in
  if (raw_text =? "")
     || prefix "Start a new thought here..." raw_text
     || prefix "Enter your response here..." raw_text
     || prefix "Enter your counter-argument here..." raw_text
  then (Warned "Missing Input", s)
  else (Done, start_thread (JobThought raw_text) (set_buttons_state DISABLED s)).

(** ** Callbacks the workers schedule *)

Definition _update_guided_result (raw_text : string) (result : json) (s : VoicepalApp)
    : outcome * VoicepalApp :=
  let s1 := with_current_step_data result s in
  match py_get result "corrected_text" (JStr "Correction failed.") with
  | Raise e => (Crashed e, s1)
  | Ret corrected_text =>
      match py_get result "challenge_questions" (JArr []) with
      | Raise e => (Crashed e, s1)
      | Ret challenge_questions =>
          let s2 := with_input_text "Enter your response here..." s1 in
          match create_question_cards challenge_questions s2 with
          | (Crashed e, s3) => (Crashed e, s3)
          | (_, s3) => (Done, set_buttons_state NORMAL s3)
          end
      end
  end.

Definition _handle_error (message : string) (s : VoicepalApp) : outcome * VoicepalApp :=
  (Errored "Processing Error", set_buttons_state NORMAL s).

Definition _update_debate_ui (ai_rebuttal : json) (s : VoicepalApp) : VoicepalApp :=
  with_debate_command EndDebate
    (set_buttons_state NORMAL
      (with_input_text "Enter your counter-argument here..." s)).

Definition _show_blog_post_window (content : json) (s : VoicepalApp) : VoicepalApp :=
  set_buttons_state NORMAL s.

(** ** Workers *)

Section Workers.

Variable json_loads : string -> option json.
Variable api_key : string.

(** A callback scheduled inside [except ... as e] as [lambda: ...e...]
    reads [e] when the main loop runs it.  Python unbinds [e] at the end
    of the [except] clause, so a callback that runs after that raises
    [NameError] instead of doing its work.  [unbound] tells which of the
    two happens. *)
Definition scheduled_with_e (unbound : bool) (callback : outcome) : outcome :=
  if unbound then Crashed NameError else callback.

(** [_run_thought_processing]: every exception of the call is caught and
    ends in a scheduled [_handle_error], whose message only goes to the
    log and the message box. *)
Definition _run_thought_processing (raw_text : string) (s : VoicepalApp)
    (w : world) (unbound : bool) : outcome * VoicepalApp :=
  match fst (call_gemini_api_structured json_loads api_key 5 w) with
  | Ret result =>
      if truthy result
      then _update_guided_result raw_text result s
      else _handle_error "API returned no content or failed to parse JSON." s
  | Raise e =>
      if unbound then (Crashed NameError, s)
      else _handle_error
             match e with
             | ValueError msg => msg
             | _ => "An unexpected error occurred"
             end s
  end.

(** [_run_debate_turn]: the reply, or the text that stands in for a
    missing one, is appended as the assistant's turn. *)
Definition _run_debate_turn (s : VoicepalApp) (w : world) (unbound : bool)
    : outcome * VoicepalApp :=
  let answer :=
    match fst (call_gemini_api_debate api_key 5 w) with
    | Ret reply => Ret (Done, reply)
    | Raise e =>
        if is_ValueError e
        then Ret (scheduled_with_e unbound (Errored "API Error"),
                  JStr "Debate turn failed due to configuration error.")
        else Raise e
    end in
  match answer with
  | Raise e => (Crashed e, s)
  | Ret (shown, reply) =>
      let ai_rebuttal :=
        if negb (truthy reply)
        then JStr "AI failed to generate a rebuttal after multiple retries. Try ending and restarting the debate."
        else reply in
      let s1 := with_debate_history
                  (debate_history s ++ [{| turn_role := assistant; turn_text := ai_rebuttal |}]) s in
      (shown, _update_debate_ui ai_rebuttal s1)
  end.

(** [_run_blog_post_generation] reads the history and the pending result
    for its prompt and writes to neither. *)
Definition _run_blog_post_generation (s : VoicepalApp) (w : world) (unbound : bool)
    : outcome * VoicepalApp :=
  match corrected_text_or_none (current_step_data s) (JStr "N/A") with
  | Raise e => (Crashed e, s)
  | Ret final_thought =>
      match fst (call_gemini_api_debate api_key 5 w) with
      | Ret content =>
          let blog_post_content :=
            if negb (truthy content)
            then JStr "Failed to generate blog post after multiple retries. Check connection or API key."
            else content in
          (Done, _show_blog_post_window blog_post_content s)
      | Raise e =>
          if is_ValueError e
          then (scheduled_with_e unbound (Errored "API Error"),
                _show_blog_post_window (JStr "Failed due to configuration error.") s)
          else (Crashed e, s)
      end
  end.

(** The worker that was started runs to its end, in whatever world it
    finds. *)
Definition run_thread (j : job) (s : VoicepalApp) (w : world) (unbound : bool)
    : outcome * VoicepalApp :=
  let s0 := with_thread None s in
  match j with
  | JobThought raw_text => _run_thought_processing raw_text s0 w unbound
  | JobBlog => _run_blog_post_generation s0 w unbound
  | JobDebate => _run_debate_turn s0 w unbound
  end.

(** ** The event loop *)

(** What can happen to the window: the user edits the input box or clicks,
    or the running worker finishes.  Tk runs one handler at a time.  After
    [set_buttons_state(tk.DISABLED)] the Process, Blog and Debate buttons
    deliver no click until a callback calls [set_buttons_state(tk.NORMAL)]:
    the one handler that configures two of them in between,
    [confirm_focus], removes their frame from the window with the same
    stroke.  Otherwise every button counts as clickable, and so do the
    cards and the Confirm button at all times, which allows more clicks
    than the window does.  The speech-recognition callbacks are not among
    these events: this is the window while nothing is recorded, where one
    worker runs at a time.  [window_dispatch] below adds the recording,
    and with it the workers that run side by side. *)
Inductive event : Type :=
  | UserTypes (text : string)
  | ClickCard (index : nat)
  | ClickConfirm
  | ClickProcess
  | ClickBlog
  | ClickDebate
  | ThreadDone (w : world) (unbound : bool).

Definition dispatch (s : VoicepalApp) (e : event) : VoicepalApp :=
  match e with
  | UserTypes text => with_input_text text s
  | ClickCard index =>
      match nth_error (question_cards s) index with
      | Some question_text => select_question question_text s
      | None => s
      end
  | ClickConfirm => snd (confirm_focus s)
  | ClickProcess =>
      match buttons s, process_command s with
      | DISABLED, _ => s
      | NORMAL, ProcessInput => snd (process_input_threaded s)
      | NORMAL, SendRebuttal => snd (send_rebuttal_threaded s)
      end
  | ClickBlog =>
      match buttons s with
      | DISABLED => s
      | NORMAL => snd (generate_blog_post_threaded s)
      end
  | ClickDebate =>
      match buttons s, debate_command s with
      | DISABLED, _ => s
      | NORMAL, StartDebate => snd (start_debate_mode s)
      | NORMAL, EndDebate => snd (end_debate s)
      end
  | ThreadDone w unbound =>
      match thread s with
      | Some j => snd (run_thread j s w unbound)
      | None => s
      end
  end.

Definition run (events : list event) : VoicepalApp := fold_left dispatch events init.

Definition reachable (s : VoicepalApp) : Prop := exists events, s = run events.

End Workers.

(** ** Recording, and workers side by side *)

(** What [recognizer.recognize_google(audio)] does with a phrase: it
    returns the transcription or raises. *)
Inductive recognition : Type :=
  | Recognized (transcription : string)
  | UnknownValueError
  | RequestError (e : string)
  | OtherError (e : string).

(** The dicts [speech_callback] puts on [audio_queue], by their status. *)
Inductive stt_result : Type :=
  | SUCCESS (text : string)
  | UNKNOWN
  | ERROR_REQUEST (error : string)
  | ERROR_GENERAL (error : string).

(** The window together with what runs beside it: the worker threads that
    were started and have not finished (the code keeps no handle on them,
    and nothing but a disabled button keeps a second one from starting
    while a first runs); [is_recording]; whether a listener thread has
    been started, which calls [speech_callback] for every phrase it hears;
    the queue the callback fills; and the number of calls of
    [process_transcription_from_queue] that [master.after] holds.  In
    [gui] the field [thread] stays empty: a thread a handler starts is
    moved to [workers]. *)
Record Window : Type := {
  gui : VoicepalApp;
  workers : list job;
  is_recording : bool;
  listener : bool;
  audio_queue : list stt_result;
  after_calls : nat
}.

Definition window_init : Window :=
  {| gui := init; workers := []; is_recording := false; listener := false;
     audio_queue := []; after_calls := 0 |}.

Definition with_gui (g : VoicepalApp) (p : Window) : Window :=
  {| gui := g; workers := workers p; is_recording := is_recording p;
     listener := listener p; audio_queue := audio_queue p;
     after_calls := after_calls p |}.

Definition with_workers (v : list job) (p : Window) : Window :=
  {| gui := gui p; workers := v; is_recording := is_recording p;
     listener := listener p; audio_queue := audio_queue p;
     after_calls := after_calls p |}.

Definition with_audio_queue (v : list stt_result) (p : Window) : Window :=
  {| gui := gui p; workers := workers p; is_recording := is_recording p;
     listener := listener p; audio_queue := v;
     after_calls := after_calls p |}.

Definition with_after_calls (v : nat) (p : Window) : Window :=
  {| gui := gui p; workers := workers p; is_recording := is_recording p;
     listener := listener p; audio_queue := audio_queue p;
     after_calls := v |}.

(** [speech_callback], on the listener thread: the outcome of the
    recognition goes on the queue, and a call of
    [process_transcription_from_queue] is scheduled. *)
Definition speech_callback (heard : recognition) (p : Window) : Window :=
  let result :=
    match heard with
    | Recognized transcription => SUCCESS transcription
    | UnknownValueError => UNKNOWN
    | RequestError e => ERROR_REQUEST (String.append "Request failed: " e)
    | OtherError e => ERROR_GENERAL (String.append "General error: " e)
    end in
  with_after_calls (S (after_calls p))
    (with_audio_queue (audio_queue p ++ [result]) p).

(** [record_input_toggle], the click on the Record button.  Starting a
    recording empties the input box and starts a listener; stopping it
    tells the listener to stop, which does not wait for a phrase it is
    working on.  The Process button that the start disables alone keeps
    counting as clickable here, as the other buttons do at all times they
    are not disabled together. *)
Definition record_input_toggle (p : Window) : Window :=
  if is_recording p
  then {| gui := gui p; workers := workers p; is_recording := false;
          listener := listener p; audio_queue := audio_queue p;
          after_calls := after_calls p |}
  else {| gui := with_input_text "" (gui p); workers := workers p;
          is_recording := true; listener := true;
          audio_queue := audio_queue p; after_calls := after_calls p |}.

(** [process_transcription_from_queue]: its first statement enables the
    Process button, whatever runs; then the oldest result of the queue, if
    there is one, is shown.  With one state for all buttons, the others
    count as enabled with it. *)
Definition process_transcription_from_queue (p : Window) : outcome * Window :=
  let g := with_buttons NORMAL (gui p) in
  match audio_queue p with
  | [] => (Done, with_gui g p)
  | result :: rest =>
      let p1 := with_audio_queue rest (with_gui g p) in
      match result with
      | SUCCESS transcription => (Done, with_gui (with_input_text transcription g) p1)
      | UNKNOWN => (Warned "Error", p1)
      | ERROR_REQUEST _ => (Errored "STT Error", p1)
      | ERROR_GENERAL _ => (Errored "Error", p1)
      end
  end.

(** The thread a handler has just started. *)
Definition started (g : VoicepalApp) : list job :=
  match thread g with
  | Some j => [j]
  | None => []
  end.

(** What can happen to the window and around it: an event of the window
    as above, where a thread that is started joins the workers; the end of
    any one of the workers; a click on the Record button; a phrase heard
    by a listener; and a scheduled call of
    [process_transcription_from_queue] that comes due.  A listener that
    was told to stop may still deliver a phrase. *)
Inductive window_event : Type :=
  | Gui (e : event)
  | WorkerDone (index : nat) (w : world) (unbound : bool)
  | ClickRecord
  | PhraseHeard (heard : recognition)
  | AfterCall.

Section Recording.

Variable json_loads : string -> option json.
Variable api_key : string.

Definition window_dispatch (p : Window) (e : window_event) : Window :=
  match e with
  | Gui e' =>
      let g := dispatch json_loads api_key (with_thread None (gui p)) e' in
      with_workers (workers p ++ started g) (with_gui (with_thread None g) p)
  | WorkerDone index w unbound =>
      match nth_error (workers p) index with
      | Some j =>
          with_workers (firstn index (workers p) ++ skipn (S index) (workers p))
            (with_gui (snd (run_thread json_loads api_key j (gui p) w unbound)) p)
      | None => p
      end
  | ClickRecord => record_input_toggle p
  | PhraseHeard heard => if listener p then speech_callback heard p else p
  | AfterCall =>
      match after_calls p with
      | 0 => p
      | S n => with_after_calls n (snd (process_transcription_from_queue p))
      end
  end.

Definition window_run (events : list window_event) : Window :=
  fold_left window_dispatch events window_init.

Definition window_reachable (p : Window) : Prop := exists events, p = window_run events.

End Recording.

(** ** Properties stated over the model *)

(** The requests and sleeps of a call whose first [n] attempts, numbered
    from [a], all end in the handler. *)
Definition schedule (a n : nat) : list io_event :=
  flat_map (fun attempt => [Posted; Slept (2 ^ attempt)]) (seq a n).

(** The same for the five attempts of a call, written out. *)
Definition backoff_schedule : list io_event :=
  [Posted; Slept 1; Posted; Slept 2; Posted; Slept 4; Posted; Slept 8;
   Posted; Slept 16].

(** What [requests.post] returns or raises for a fate [net w k]. *)
Definition posted_of (fate : option response) : result response :=
  match fate with
  | Some r => Ret r
  | None => Raise ConnectionError
  end.

(** The attempt ends in the handler, which sleeps and lets the loop go on. *)
Definition retried (reply : result response -> result json)
    (fate : option response) : Prop :=
  exists e, reply (posted_of fate) = Raise e /\ caught e = true.

(** The attempts before the [k]-th of a call that starts in [w] all end in
    the handler. *)
Definition retried_until (reply : result response -> result json)
    (w : world) (k : nat) : Prop :=
  forall j, j < k -> retried reply (net w (sent w + j)).

Definition ok_status (r : response) : Prop :=
  ~ (400 <= status_code r < 600)%Z.

(** The four ways a request can end, as far as the two [try] blocks
    distinguish them. *)
Inductive fate_shape : option response -> Prop :=
  | shape_none : fate_shape None
  | shape_status r : (400 <= status_code r < 600)%Z -> fate_shape (Some r)
  | shape_no_json r : ok_status r -> json_body r = None -> fate_shape (Some r)
  | shape_body r body : ok_status r -> json_body r = Some body -> fate_shape (Some r).


(** The failures both operations retry: no response, a 4xx or 5xx status,
    a body that is not JSON. *)
Inductive transport_failure : option response -> Prop :=
  | no_response : transport_failure None
  | error_status r :
      (400 <= status_code r < 600)%Z -> transport_failure (Some r)
  | body_not_json r :
      ok_status r -> json_body r = None -> transport_failure (Some r).

(** The structured operation also retries a payload text that
    [json.loads] rejects. *)
Inductive payload_undecodable (json_loads : string -> option json)
    : option response -> Prop :=
  | undecodable r body t :
      ok_status r -> json_body r = Some body ->
      extract_text body = Ret (JStr t) -> t <> "" -> json_loads t = None ->
      payload_undecodable json_loads (Some r).

(** A response of the expected shape whose payload is missing or empty,
    or, for the structured operation, is the JSON text of [null]. *)
Inductive empty_payload : option response -> Prop :=
  | payload_falsy r body json_text :
      ok_status r -> json_body r = Some body ->
      extract_text body = Ret json_text -> truthy json_text = false ->
      empty_payload (Some r).

Inductive null_payload (json_loads : string -> option json)
    : option response -> Prop :=
  | payload_null r body t :
      ok_status r -> json_body r = Some body ->
      extract_text body = Ret (JStr t) -> t <> "" -> json_loads t = Some JNull ->
      null_payload json_loads (Some r).

Inductive absent_text : option response -> Prop :=
  | text_absent r body :
      ok_status r -> json_body r = Some body ->
      extract_text body = Ret JNull ->
      absent_text (Some r).

(** The roles of a debate: turn [i] is the user's when [i] is even and the
    assistant's when it is odd. *)
Definition alternates (turns : list turn) : Prop :=
  forall i t, nth_error turns i = Some t ->
    turn_role t = if Nat.even i then user else assistant.

(** ** The specification's reading of an attempt *)

(** A value that fits the declared schema as the specification reads it:
    an object with a string [corrected_text] and exactly three strings as
    [challenge_questions]. *)
Definition is_string (v : json) : bool :=
  match v with JStr _ => true | _ => false end.

Definition spec_fits_schema (v : json) : bool :=
  match v with
  | JObj fields =>
      is_string (dict_get fields "corrected_text" JNull)
      && match dict_get fields "challenge_questions" JNull with
         | JArr [q1; q2; q3] => is_string q1 && is_string q2 && is_string q3
         | _ => false
         end
  | _ => false
  end.

(** An attempt fails, in the words of the specification, on a transport
    error, a non-success status, an empty payload, or a payload that does
    not parse as the declared schema. *)
Definition spec_attempt_fails (json_loads : string -> option json)
    (fate : option response) : bool :=
  match fate with
  | None => true
  | Some r =>
      if ((400 <=? status_code r) && (status_code r <? 600))%Z then true
      else
        match json_body r with
        | None => true
        | Some body =>
            match extract_text body with
            | Ret (JStr t) =>
                if t =? "" then true
                else match json_loads t with
                     | Some v => negb (spec_fits_schema v)
                     | None => true
                     end
            | _ => true
            end
        end
  end.

(** The part of [RESPONSE_SCHEMA] that describes the questions. *)
Definition questions_schema : result json :=
  properties <- py_get RESPONSE_SCHEMA "properties" JNull ;;
  py_get properties "challenge_questions" JNull.

(** The number of challenge questions a result carries. *)
Definition question_count (v : json) : option nat :=
  match v with
  | JObj fields =>
      match dict_get fields "challenge_questions" JNull with
      | JArr questions => Some (List.length questions)
      | _ => None
      end
  | _ => None
  end.

(** ** Sample data *)

Definition dq : string := String "034" "".

Definition quoted (s : string) : string := String.append dq (String.append s dq).

Definition concat_all (parts : list string) : string :=
  fold_right String.append "" parts.

(** The text [{"corrected_text": "X", "challenge_questions": ["a", "b"]}]. *)
Definition two_questions_text : string :=
  concat_all ["{"; quoted "corrected_text"; ": "; quoted "X"; ", ";
              quoted "challenge_questions"; ": ["; quoted "a"; ", "; quoted "b"; "]}"].

Definition two_questions : json :=
  JObj [("corrected_text", JStr "X");
        ("challenge_questions", JArr [JStr "a"; JStr "b"])].

(** The text [{"corrected_text": "X", "challenge_questions": ["a", "b", "c"]}]. *)
Definition three_questions_text : string :=
  concat_all ["{"; quoted "corrected_text"; ": "; quoted "X"; ", ";
              quoted "challenge_questions"; ": ["; quoted "a"; ", "; quoted "b";
              ", "; quoted "c"; "]}"].

Definition three_questions : json :=
  JObj [("corrected_text", JStr "X");
        ("challenge_questions", JArr [JStr "a"; JStr "b"; JStr "c"])].

(** [json.loads] on the two sample texts; the examples decode nothing else. *)
Definition sample_loads (s : string) : option json :=
  if s =? two_questions_text then Some two_questions
  else if s =? three_questions_text then Some three_questions
  else None.

(** A 200 response in the shape of the API whose single part is [part]. *)
Definition response_with_part (part : json) : response :=
  {| status_code := 200;
     json_body := Some (JObj [("candidates",
                    JArr [JObj [("content", JObj [("parts", JArr [part])])]])]) |}.

Definition response_with_text (t : string) : response :=
  response_with_part (JObj [("text", JStr t)]).

(** A candidate that carries no text. *)
Definition response_without_text : response := response_with_part (JObj []).

Definition fresh (fates : nat -> option response) : world :=
  {| net := fates; sent := 0; trace := [] |}.

(** Every request is answered with [r]. *)
Definition always (r : response) : world := fresh (fun _ => Some r).

(** No request gets through. *)
Definition offline : world := fresh (fun _ => None).

(** The first request gets a candidate without text, the later ones a
    well-formed result. *)
Definition empty_then_good : world :=
  fresh (fun k => match k with
                  | 0 => Some response_without_text
                  | S _ => Some (response_with_text three_questions_text)
                  end).

(** What a call of five attempts promises about null, for an operation
    that retries the fates in [transient] and turns those in [null] into
    a null result: null comes back exactly when all five attempts are
    retried or the first one that is not has a fate in [null]; the first
    attempt that is not retried is the last request; five retried attempts
    are five requests; and attempts of these two kinds let no exception
    out. *)
Definition returns_null_exactly_when (call : world -> result json * world)
    (transient null : option response -> Prop) : Prop :=
  forall w,
    let fate k := net w (sent w + k) in
    (fst (call w) = Ret JNull <->
       (forall k, k < 5 -> transient (fate k)) \/
       (exists k, k < 5 /\ (forall j, j < k -> transient (fate j)) /\ null (fate k)))
    /\ (forall k, k < 5 -> (forall j, j < k -> transient (fate j)) ->
          ~ transient (fate k) -> sent (snd (call w)) = sent w + S k)
    /\ ((forall k, k < 5 -> transient (fate k)) -> sent (snd (call w)) = sent w + 5)
    /\ ((forall k, k < 5 -> transient (fate k) \/ null (fate k)) ->
          fst (call w) = Ret JNull).

(** What the debate keeps true from one event to the next: the roles
    alternate; a running worker means disabled buttons; the Process button
    sends rebuttals only once the debate has its opening turn; and the
    assistant owes a turn exactly while the debate worker runs. *)
Definition debate_inv (s : VoicepalApp) : Prop :=
  alternates (debate_history s)
  /\ (thread s <> None -> buttons s = DISABLED)
  /\ (process_command s = SendRebuttal -> debate_history s <> [])
  /\ match thread s with
     | Some JobDebate => Nat.even (List.length (debate_history s)) = false
     | Some _ => Nat.even (List.length (debate_history s)) = true
     | None => buttons s = NORMAL -> Nat.even (List.length (debate_history s)) = true
     end.

(** The step counter is one ahead of the confirmed steps. *)
Definition step_inv (s : VoicepalApp) : Prop :=
  current_step s = List.length (conversation_history s) + 1.

(** A session with the key ["key"]: a thought is typed and processed and
    comes back with three questions... *)
Definition thought_processed : list event :=
  [UserTypes "I think people should work less";
   ClickProcess;
   ThreadDone (always (response_with_text three_questions_text)) false].

Definition after_thought : VoicepalApp :=
  run sample_loads "key" thought_processed.

(** ... the second question is chosen... *)
Definition focus_selected : VoicepalApp :=
  run sample_loads "key" (thought_processed ++ [ClickCard 1]).

(** ... and confirmed. *)
Definition after_confirm : VoicepalApp :=
  run sample_loads "key" (thought_processed ++ [ClickCard 1; ClickConfirm]).

(** Or else the debate is started on the pending thought, the opponent
    answers, and the user sends a rebuttal. *)
Definition rebuttal_sent : VoicepalApp :=
  run sample_loads "key"
    (thought_processed ++
     [ClickDebate;
      ThreadDone (always (response_with_text "No.")) false;
      UserTypes "But yes";
      ClickProcess]).

(** A session with the microphone on.  The Record button is clicked, a
    phrase is heard, its transcription is put into the input box and
    processed, and the result comes back with three questions... *)
Definition spoken_thought : list window_event :=
  [ClickRecord;
   PhraseHeard (Recognized "I think people should work less");
   AfterCall;
   Gui ClickProcess;
   WorkerDone 0 (always (response_with_text three_questions_text)) false].

(** ... the debate is started on it, which starts the worker of the
    opening turn... *)
Definition debate_while_recording : list window_event :=
  spoken_thought ++ [Gui ClickDebate].

Definition first_worker_running : Window :=
  window_run sample_loads "key" debate_while_recording.

(** ... and while that worker runs another phrase is heard: its
    transcription enables the Process button, which by now sends
    rebuttals, and the click starts a second worker. *)
Definition second_worker_started : list window_event :=
  debate_while_recording ++
  [PhraseHeard (Recognized "hm"); AfterCall; Gui ClickProcess].

(** Both workers get their reply. *)
Definition two_replies : Window :=
  window_run sample_loads "key"
    (second_worker_started ++
     [WorkerDone 0 (always (response_with_text "No.")) false;
      WorkerDone 0 (always (response_with_text "No.")) false]).

(** Or else the first gets its reply, the debate is ended, and the second
    gets its reply after that. *)
Definition reply_after_end : Window :=
  window_run sample_loads "key"
    (second_worker_started ++
     [WorkerDone 0 (always (response_with_text "No.")) false;
      Gui ClickDebate;
      WorkerDone 0 (always (response_with_text "No.")) false]).

(** ** Further properties: definitions *)



(** Text made of whitespace only. *)
Fixpoint all_space (s : string) : bool :=
  match s with
  | "" => true
  | String c rest => is_space c && all_space rest
  end.

(** Text whose last character is there and is no whitespace. *)
Fixpoint ends_visible (s : string) : bool :=
  match s with
  | "" => false
  | String c "" => negb (is_space c)
  | String _ rest => ends_visible rest
  end.

(** The texts the handlers put into the input box for the user to
    replace. *)
Definition placeholders : list string :=
  ["Start a new thought here..."; "Enter your response here...";
   "Enter your counter-argument here..."].

(** The two states hold the same conversation: everything but the input
    box, the state of the buttons and the running worker. *)
Definition same_conversation (s s' : VoicepalApp) : Prop :=
  selected_question s' = selected_question s
  /\ current_step_data s' = current_step_data s
  /\ conversation_history s' = conversation_history s
  /\ current_step s' = current_step s
  /\ is_debating s' = is_debating s
  /\ debate_history s' = debate_history s
  /\ question_cards s' = question_cards s
  /\ process_command s' = process_command s
  /\ debate_command s' = debate_command s.

(** Nothing has ever been processed: the conversation is as [__init__]
    left it, and the only worker there can be is one for a thought. *)
Definition pristine (s : VoicepalApp) : Prop :=
  current_step_data s = JNull
  /\ selected_question s = JNull
  /\ question_cards s = []
  /\ conversation_history s = []
  /\ current_step s = 1
  /\ is_debating s = false
  /\ debate_history s = []
  /\ process_command s = ProcessInput
  /\ debate_command s = StartDebate
  /\ (thread s = None \/ exists raw_text, thread s = Some (JobThought raw_text)).

(** The confirmed steps are numbered 1, 2, 3, ... in order, the counter
    is the next number, and each step has a focus question. *)
Definition history_inv (s : VoicepalApp) : Prop :=
  map step (conversation_history s) = seq 1 (List.length (conversation_history s))
  /\ current_step s = List.length (conversation_history s) + 1
  /\ forall item, In item (conversation_history s) ->
       truthy (focus_question item) = true.

(** Text of ASCII characters only, on which [strip] is [str.strip()]. *)
Fixpoint is_ascii (s : string) : bool :=
  match s with
  | "" => true
  | String c rest => Nat.ltb (nat_of_ascii c) 128 && is_ascii rest
  end.

(** The Process button is bound by the mode, and in debate mode the Debate
    button ends the debate. *)
Definition buttons_follow_mode (s : VoicepalApp) : Prop :=
  (is_debating s = true <-> process_command s = SendRebuttal)
  /\ (is_debating s = true -> debate_command s = EndDebate).

(** What a turn of a debate satisfies: a turn of the assistant has a text
    that is not empty, and so has a turn of the user that opens the
    debate, which moreover is not "N/A". *)
Definition turn_sound (i : nat) (t : turn) : Prop :=
  (turn_role t = assistant -> truthy (turn_text t) = true)
  /\ (turn_role t = user -> i = 0 ->
      truthy (turn_text t) = true /\ eq_str (turn_text t) "N/A" = false).

Definition turns_sound (turns : list turn) : Prop :=
  forall i t, nth_error turns i = Some t -> turn_sound i t.

(** The selection, if any, is the text of one of the cards. *)
Definition selection_inv (s : VoicepalApp) : Prop :=
  selected_question s = JNull \/ In (selected_question s) (question_cards s).

(** A response whose list of candidates is empty. *)
Definition response_without_candidates : response :=
  {| status_code := 200; json_body := Some (JObj [("candidates", JArr [])]) |}.

(** *** The prompt of the summary *)

(** [str(n)] for a step number. *)
Definition str_of_nat (n : nat) : string :=
  NilEmpty.string_of_uint (Nat.to_uint n).

Definition newline : string := String "010" "".

(** The first line of the transcript, with the empty line after it. *)
Definition transcript_header : string :=
  String.append "Thought Process Transcript for Blog Post:" (String.append newline newline).

Section Transcript.

(** [str(v)] for a value that is not text, as an f-string prints it. *)
Variable py_repr : json -> string.

Definition py_str (v : json) : string :=
  match v with
  | JStr s => s
  | _ => py_repr v
  end.

(** The two lines [_run_blog_post_generation] adds for a step, written
    with the number to print. *)
Definition thought_line (number : nat) (item : history_item) : string :=
  concat_all ["STEP "; str_of_nat number; " - Thought/Response: ";
              py_str (thought item); newline].

Definition question_line (number : nat) (item : history_item) : string :=
  concat_all ["STEP "; str_of_nat number; " - Focused Question: ";
              py_str (focus_question item); newline; newline].

Definition final_line (number : nat) (final_thought : json) : string :=
  concat_all ["STEP "; str_of_nat number; " - Final Thought: ";
              py_str final_thought; newline].

(** The text [_run_blog_post_generation] sends as the user's turn: the
    header, two lines per confirmed step in the order of the history, and
    a last line for a pending thought that was not confirmed. *)
Definition conversation_text (s : VoicepalApp) : result string :=
  let text :=
    fold_left
      (fun text item =>
         String.append (String.append text (thought_line (step item) item))
                       (question_line (step item) item))
      (conversation_history s) transcript_header in
  final_thought <- corrected_text_or_none (current_step_data s) (JStr "N/A") ;;
  Ret (if truthy final_thought && negb (eq_str final_thought "N/A")
       then String.append text (final_line (current_step s) final_thought)
       else text).

(** The two lines of the step at each position, numbered by position. *)
Definition numbered_blocks (history : list history_item) : list string :=
  map (fun p => String.append (thought_line (fst p) (snd p))
                              (question_line (fst p) (snd p)))
      (combine (seq 1 (List.length history)) history).

End Transcript.

(** * Proofs *)

(** ** The retry loop *)

Section RetryLoop.

Variable reply : result response -> result json.

Lemma attempt_unfold (w : world) :
  attempt reply w =
    (reply (posted_of (net w (sent w))),
     {| net := net w; sent := S (sent w); trace := trace w ++ [Posted] |}).
Proof. reflexivity. Qed.

Lemma schedule_succ (a n : nat) :
  schedule a (S n) = Posted :: Slept (2 ^ a) :: schedule (S a) n.
Proof. reflexivity. Qed.

Lemma retried_until_shift (w w' : world) (k : nat) :
  net w' = net w -> sent w' = S (sent w) ->
  retried reply (net w (sent w)) ->
  retried_until reply w' k -> retried_until reply w (S k).
Proof.
  intros Hnet Hsent H0 H j Hj.
  destruct j as [|j].
  - rewrite Nat.add_0_r. exact H0.
  - specialize (H j (proj2 (Nat.succ_lt_mono j k) Hj)).
    rewrite Hnet, Hsent in H.
    replace (sent w + S j) with (S (sent w) + j) by lia. exact H.
Qed.

(** Either every attempt ends in the handler and the loop falls through
    to [return None], or the first attempt that does not decides the
    call; the requests and sleeps are those of the schedule. *)
Lemma retry_loop_cases (n : nat) : forall (a : nat) (w : world),
  (retried_until reply w n /\
   retry_loop (attempt reply) (seq a n) w =
     (Ret JNull,
      {| net := net w; sent := sent w + n; trace := trace w ++ schedule a n |}))
  \/
  (exists k, k < n /\ retried_until reply w k /\
     ~ retried reply (net w (sent w + k)) /\
     retry_loop (attempt reply) (seq a n) w =
       (reply (posted_of (net w (sent w + k))),
        {| net := net w; sent := sent w + S k;
           trace := trace w ++ schedule a k ++ [Posted] |})).
Proof.
  induction n as [|n IH]; intros a w.
  - left. split.
    + intros j Hj. lia.
    + destruct w as [f c tr]. simpl. unfold schedule. simpl.
      rewrite Nat.add_0_r, app_nil_r. reflexivity.
  - assert (Hstop : forall r,
              reply (posted_of (net w (sent w))) = r ->
              ~ retried reply (net w (sent w)) ->
              retry_loop (attempt reply) (seq a (S n)) w =
                (r, {| net := net w; sent := S (sent w); trace := trace w ++ [Posted] |}) ->
              exists k, k < S n /\ retried_until reply w k /\
                ~ retried reply (net w (sent w + k)) /\
                retry_loop (attempt reply) (seq a (S n)) w =
                  (reply (posted_of (net w (sent w + k))),
                   {| net := net w; sent := sent w + S k;
                      trace := trace w ++ schedule a k ++ [Posted] |})).
    { intros r Hr Hnot Heq. exists 0. split; [lia|]. split.
      - intros j Hj. lia.
      - rewrite Nat.add_0_r. split; [exact Hnot|].
        rewrite Heq, Hr. unfold schedule. simpl.
        replace (sent w + 1) with (S (sent w)) by lia. reflexivity. }
    cbn [seq retry_loop] in *. rewrite attempt_unfold in *.
    destruct (reply (posted_of (net w (sent w)))) as [v|e] eqn:Hr.
    + right. apply (Hstop (Ret v)); [reflexivity| |].
      * intros [e [He _]]. congruence.
      * reflexivity.
    + destruct (caught e) eqn:Hc.
      * assert (H0 : retried reply (net w (sent w))) by (exists e; auto).
        set (w2 := time_sleep (2 ^ a)
                     {| net := net w; sent := S (sent w); trace := trace w ++ [Posted] |}).
        destruct (IH (S a) w2) as [[Hall Heq] | [k [Hk [Hall [Hnot Heq]]]]].
        -- left. split.
           ++ apply (retried_until_shift w w2); auto.
           ++ etransitivity; [exact Heq|]. unfold w2. simpl. rewrite schedule_succ.
              rewrite <- !app_assoc. simpl.
              replace (S (sent w + n)) with (sent w + S n) by lia. reflexivity.
        -- right. exists (S k). split; [lia|]. split.
           ++ apply (retried_until_shift w w2); auto.
           ++ unfold w2 in Hnot, Heq. simpl in Hnot, Heq.
              replace (sent w + S k) with (S (sent w + k)) by lia.
              split; [exact Hnot|].
              etransitivity; [exact Heq|].
              rewrite schedule_succ. rewrite <- !app_assoc. simpl.
              do 2 f_equal. lia.
      * right. apply (Hstop (Raise e)); [reflexivity| |].
        -- intros [e' [He' Hc']]. congruence.
        -- reflexivity.
Qed.

Lemma retried_not_null (fate : option response) :
  retried reply fate -> reply (posted_of fate) <> Ret JNull.
Proof. intros [e [He _]]. congruence. Qed.

(** The loop returns null exactly when it is exhausted or its first
    attempt outside the handler returns null. *)
Lemma retry_loop_null (n a : nat) (w : world) :
  fst (retry_loop (attempt reply) (seq a n) w) = Ret JNull <->
    retried_until reply w n \/
    (exists k, k < n /\ retried_until reply w k /\
       reply (posted_of (net w (sent w + k))) = Ret JNull).
Proof.
  destruct (retry_loop_cases n a w) as [[Hall Heq] | [k [Hk [Hall [Hnot Heq]]]]];
    rewrite Heq; simpl.
  - split; auto.
  - split.
    + intros H. right. exists k. auto.
    + intros [Hn | [k' [Hk' [Hall' Hnull]]]].
      * exfalso. apply Hnot. apply Hn. exact Hk.
      * destruct (Nat.lt_trichotomy k k') as [Hlt | [Heq' | Hgt]].
        -- exfalso. apply Hnot. apply Hall'. exact Hlt.
        -- subst k'. exact Hnull.
        -- exfalso. apply (retried_not_null _ (Hall _ Hgt)). exact Hnull.
Qed.

(** The first attempt outside the handler is the last request. *)
Lemma retry_loop_stops (n a : nat) (w : world) (k : nat) :
  k < n -> retried_until reply w k -> ~ retried reply (net w (sent w + k)) ->
  retry_loop (attempt reply) (seq a n) w =
    (reply (posted_of (net w (sent w + k))),
     {| net := net w; sent := sent w + S k;
        trace := trace w ++ schedule a k ++ [Posted] |}).
Proof.
  intros Hk Hall Hnot.
  destruct (retry_loop_cases n a w) as [[Hall' _] | [k' [Hk' [Hall' [Hnot' Heq]]]]].
  - exfalso. apply Hnot. apply Hall'. exact Hk.
  - destruct (Nat.lt_trichotomy k k') as [Hlt | [Heq' | Hgt]].
    + exfalso. apply Hnot. apply Hall'. exact Hlt.
    + subst k'. exact Heq.
    + exfalso. apply Hnot'. apply Hall. exact Hgt.
Qed.

Lemma retry_loop_exhausted (n a : nat) (w : world) :
  retried_until reply w n ->
  retry_loop (attempt reply) (seq a n) w =
    (Ret JNull,
     {| net := net w; sent := sent w + n; trace := trace w ++ schedule a n |}).
Proof.
  intros Hall.
  destruct (retry_loop_cases n a w) as [[_ Heq] | [k [Hk [_ [Hnot _]]]]].
  - exact Heq.
  - exfalso. apply Hnot. apply Hall. exact Hk.
Qed.

Lemma schedule_split (k m a : nat) :
  schedule a (k + m) = schedule a k ++ schedule (a + k) m.
Proof.
  unfold schedule. rewrite seq_app, flat_map_app. reflexivity.
Qed.

(** What a call adds to the trace is an initial part of the schedule. *)
Lemma retry_loop_trace (n a : nat) (w : world) :
  exists m,
    trace (snd (retry_loop (attempt reply) (seq a n) w)) =
      trace w ++ firstn m (schedule a n)
    /\ sent (snd (retry_loop (attempt reply) (seq a n) w)) <= sent w + n.
Proof.
  destruct (retry_loop_cases n a w) as [[_ Heq] | [k [Hk [_ [_ Heq]]]]];
    rewrite Heq; simpl.
  - exists (List.length (schedule a n)). rewrite firstn_all. split; [reflexivity | lia].
  - exists (List.length (schedule a k) + 1). split; [|lia].
    replace n with (k + S (n - S k)) by lia.
    rewrite schedule_split, firstn_app_2. rewrite schedule_succ. reflexivity.
Qed.

End RetryLoop.

(** ** One attempt *)

Lemma bind_Raise {A B : Type} (r : result A) (k : A -> result B) (e : exn) :
  bind r k = Raise e -> r = Raise e \/ exists a, r = Ret a /\ k a = Raise e.
Proof.
  destruct r as [a|e']; simpl; intros H.
  - right. exists a. auto.
  - left. inversion H. reflexivity.
Qed.

Lemma py_get_not_caught (v : json) (key : string) (default : json) (e : exn) :
  py_get v key default = Raise e -> caught e = false.
Proof. destruct v; simpl; intros H; inversion H; reflexivity. Qed.

Lemma py_item0_not_caught (v : json) (e : exn) :
  py_item0 v = Raise e -> caught e = false.
Proof.
  destruct v as [| | |s|items|fields]; simpl; intros H;
    try (inversion H; reflexivity).
  - destruct s; inversion H; reflexivity.
  - destruct items; inversion H; reflexivity.
Qed.

(** The walk through the body raises nothing the retry handler lists. *)
Lemma extract_text_not_caught (body : json) (e : exn) :
  extract_text body = Raise e -> caught e = false.
Proof.
  unfold extract_text. intros H.
  repeat (apply bind_Raise in H; destruct H as [H | [? [_ H]]];
          [ first [ apply py_get_not_caught in H; exact H
                  | apply py_item0_not_caught in H; exact H ] | ]).
  apply py_get_not_caught in H. exact H.
Qed.

Lemma status_cases (r : response) :
  (raise_for_status r = Raise HTTPError /\ (400 <= status_code r < 600)%Z)
  \/ (raise_for_status r = Ret tt /\ ok_status r).
Proof.
  unfold raise_for_status, ok_status.
  destruct (Z.leb_spec 400 (status_code r)); destruct (Z.ltb_spec (status_code r) 600);
    simpl; [left | right | right | right]; split; auto; lia.
Qed.

Lemma fate_cases (fate : option response) : fate_shape fate.
Proof.
  destruct fate as [r|]; [|constructor].
  destruct (status_cases r) as [[_ H] | [_ H]].
  - apply shape_status. exact H.
  - destruct (json_body r) as [body|] eqn:Hb.
    + apply (shape_body r body); auto.
    + apply shape_no_json; auto.
Qed.

Section AttemptFacts.

Variable json_loads : string -> option json.


Lemma debate_reply_status (r : response) :
  (400 <= status_code r < 600)%Z -> debate_reply (Ret r) = Raise HTTPError.
Proof.
  intros H. unfold debate_reply. simpl.
  destruct (status_cases r) as [[Hs _] | [_ Hok]]; [rewrite Hs; reflexivity | contradiction].
Qed.

Lemma structured_reply_status (r : response) :
  (400 <= status_code r < 600)%Z -> structured_reply json_loads (Ret r) = Raise HTTPError.
Proof.
  intros H. unfold structured_reply. simpl.
  destruct (status_cases r) as [[Hs _] | [_ Hok]]; [rewrite Hs; reflexivity | contradiction].
Qed.

Lemma debate_reply_no_json (r : response) :
  ok_status r -> json_body r = None -> debate_reply (Ret r) = Raise JSONDecodeError.
Proof.
  intros Hok Hb. unfold debate_reply. simpl.
  destruct (status_cases r) as [[_ Hbad] | [Hs _]]; [contradiction|].
  rewrite Hs. simpl. unfold response_json. rewrite Hb. reflexivity.
Qed.

Lemma structured_reply_no_json (r : response) :
  ok_status r -> json_body r = None -> structured_reply json_loads (Ret r) = Raise JSONDecodeError.
Proof.
  intros Hok Hb. unfold structured_reply. simpl.
  destruct (status_cases r) as [[_ Hbad] | [Hs _]]; [contradiction|].
  rewrite Hs. simpl. unfold response_json. rewrite Hb. reflexivity.
Qed.

Lemma debate_reply_body (r : response) (body : json) :
  ok_status r -> json_body r = Some body -> debate_reply (Ret r) = extract_text body.
Proof.
  intros Hok Hb. unfold debate_reply. simpl.
  destruct (status_cases r) as [[_ Hbad] | [Hs _]]; [contradiction|].
  rewrite Hs. simpl. unfold response_json. rewrite Hb. reflexivity.
Qed.

Lemma structured_reply_body (r : response) (body : json) :
  ok_status r -> json_body r = Some body ->
  structured_reply json_loads (Ret r) =
    (json_text <- extract_text body ;;
     if truthy json_text then py_json_loads json_loads json_text else Ret JNull).
Proof.
  intros Hok Hb. unfold structured_reply. simpl.
  destruct (status_cases r) as [[_ Hbad] | [Hs _]]; [contradiction|].
  rewrite Hs. simpl. unfold response_json. rewrite Hb. reflexivity.
Qed.

Lemma truthy_JStr (t : string) : truthy (JStr t) = true <-> t <> "".
Proof.
  simpl. destruct (String.eqb_spec t ""); simpl; split; intros; congruence.
Qed.

(** The chat operation retries a transport failure and nothing else. *)
Lemma retried_debate_iff (fate : option response) :
  retried debate_reply fate <-> transport_failure fate.
Proof.
  split.
  - intros [e [He Hc]].
    destruct (fate_cases fate) as [| r Hs | r Hok Hb | r body Hok Hb]; cbn [posted_of] in He.
    + constructor.
    + apply error_status. exact Hs.
    + apply body_not_json; auto.
    + rewrite (debate_reply_body r body Hok Hb) in He.
      apply extract_text_not_caught in He. congruence.
  - intros H. destruct H as [| r Hs | r Hok Hb]; cbn [posted_of].
    + exists ConnectionError. split; reflexivity.
    + exists HTTPError. split; [apply debate_reply_status; exact Hs | reflexivity].
    + exists JSONDecodeError. split; [apply debate_reply_no_json; auto | reflexivity].
Qed.

(** The structured operation retries a transport failure and a payload
    text that does not decode, and nothing else. *)
Lemma retried_structured_iff (fate : option response) :
  retried (structured_reply json_loads) fate <->
    transport_failure fate \/ payload_undecodable json_loads fate.
Proof.
  split.
  - intros [e [He Hc]].
    destruct (fate_cases fate) as [| r Hs | r Hok Hb | r body Hok Hb]; cbn [posted_of] in He.
    + left. constructor.
    + left. apply error_status. exact Hs.
    + left. apply body_not_json; auto.
    + right. rewrite (structured_reply_body r body Hok Hb) in He.
      apply bind_Raise in He. destruct He as [He | [json_text [Ht He]]].
      * apply extract_text_not_caught in He. congruence.
      * destruct (truthy json_text) eqn:Htr; [|discriminate].
        destruct json_text as [| | |t| |]; simpl in He;
          try (inversion He; subst e; discriminate).
        destruct (json_loads t) eqn:Hl; [discriminate|].
        apply (undecodable json_loads r body t); auto.
        apply truthy_JStr. exact Htr.
  - intros [H | H].
    + destruct H as [| r Hs | r Hok Hb]; cbn [posted_of].
      * exists ConnectionError. split; reflexivity.
      * exists HTTPError. split; [apply structured_reply_status; exact Hs | reflexivity].
      * exists JSONDecodeError. split; [apply structured_reply_no_json; auto | reflexivity].
    + destruct H as [r body t Hok Hb Ht Hne Hl]. cbn [posted_of].
      exists JSONDecodeError. cbn [posted_of]. split; [|reflexivity].
      rewrite (structured_reply_body r body Hok Hb), Ht. cbn [bind].
      apply truthy_JStr in Hne. rewrite Hne. cbn [py_json_loads]. rewrite Hl. reflexivity.
Qed.

(** The chat operation returns null on a response without text. *)
Lemma debate_null_iff (fate : option response) :
  debate_reply (posted_of fate) = Ret JNull <-> absent_text fate.
Proof.
  split.
  - intros H.
    destruct (fate_cases fate) as [| r Hs | r Hok Hb | r body Hok Hb]; cbn [posted_of] in H.
    + discriminate.
    + rewrite (debate_reply_status r Hs) in H. discriminate.
    + rewrite (debate_reply_no_json r Hok Hb) in H. discriminate.
    + rewrite (debate_reply_body r body Hok Hb) in H.
      apply (text_absent r body); auto.
  - intros [r body Hok Hb Ht]. cbn [posted_of].
    rewrite (debate_reply_body r body Hok Hb). exact Ht.
Qed.

(** The structured operation returns null on a payload that is missing
    or empty, and on one that decodes to null. *)
Lemma structured_null_iff (fate : option response) :
  structured_reply json_loads (posted_of fate) = Ret JNull <->
    empty_payload fate \/ null_payload json_loads fate.
Proof.
  split.
  - intros H.
    destruct (fate_cases fate) as [| r Hs | r Hok Hb | r body Hok Hb]; cbn [posted_of] in H.
    + discriminate.
    + rewrite (structured_reply_status r Hs) in H. discriminate.
    + rewrite (structured_reply_no_json r Hok Hb) in H. discriminate.
    + rewrite (structured_reply_body r body Hok Hb) in H.
      destruct (extract_text body) as [json_text|e] eqn:Ht; [|discriminate].
      simpl in H. destruct (truthy json_text) eqn:Htr.
      * right. destruct json_text as [| | |t| |]; simpl in H; try discriminate.
        destruct (json_loads t) as [v|] eqn:Hl; [|discriminate].
        inversion H; subst v.
        apply (payload_null json_loads r body t); auto.
        apply truthy_JStr. exact Htr.
      * left. apply (payload_falsy r body json_text); auto.
  - intros [H | H].
    + destruct H as [r body json_text Hok Hb Ht Htr]. cbn [posted_of].
      rewrite (structured_reply_body r body Hok Hb), Ht. simpl. rewrite Htr. reflexivity.
    + destruct H as [r body t Hok Hb Ht Hne Hl]. cbn [posted_of].
      rewrite (structured_reply_body r body Hok Hb), Ht. cbn [bind].
      apply truthy_JStr in Hne. rewrite Hne. cbn [py_json_loads]. rewrite Hl. reflexivity.
Qed.

End AttemptFacts.

(** ** The two client operations *)

Lemma loop_contract (reply : result response -> result json)
    (transient null : option response -> Prop) :
  (forall fate, retried reply fate <-> transient fate) ->
  (forall fate, reply (posted_of fate) = Ret JNull <-> null fate) ->
  returns_null_exactly_when (retry_loop (attempt reply) (seq 0 5)) transient null.
Proof.
  intros Htr Hnull w fate.
  assert (Hall : forall k, retried_until reply w k <-> (forall j, j < k -> transient (fate j))).
  { intros k. unfold retried_until, fate. split; intros H j Hj; apply Htr; auto. }
  split; [|split; [|split]].
  - rewrite retry_loop_null. rewrite Hall. split.
    + intros [H | [k [Hk [Hbefore Hk0]]]]; [left; exact H|].
      right. exists k. split; [exact Hk|]. split; [apply Hall; exact Hbefore|].
      apply Hnull. exact Hk0.
    + intros [H | [k [Hk [Hbefore Hk0]]]]; [left; exact H|].
      right. exists k. split; [exact Hk|]. split; [apply Hall; exact Hbefore|].
      apply Hnull. exact Hk0.
  - intros k Hk Hbefore Hnot.
    rewrite (retry_loop_stops reply 5 0 w k Hk).
    + reflexivity.
    + apply Hall. exact Hbefore.
    + intros H. apply Hnot. apply Htr. exact H.
  - intros H. rewrite retry_loop_exhausted; [reflexivity|].
    apply Hall. exact H.
  - intros H.
    destruct (retry_loop_cases reply 5 0 w) as [[_ Heq] | [k [Hk [_ [Hnot Heq]]]]];
      rewrite Heq; simpl; [reflexivity|].
    destruct (H k Hk) as [Ht | Hn].
    + exfalso. apply Hnot. apply Htr. exact Ht.
    + apply Hnull. exact Hn.
Qed.

Lemma contract_ext (call call' : world -> result json * world)
    (transient null : option response -> Prop) :
  (forall w, call w = call' w) ->
  returns_null_exactly_when call' transient null ->
  returns_null_exactly_when call transient null.
Proof.
  intros Heq H w. rewrite (Heq w). apply H.
Qed.

Lemma call_structured_with_key (json_loads : string -> option json)
    (api_key : string) (max_retries : nat) (w : world) :
  truthy (JStr api_key) = true ->
  call_gemini_api_structured json_loads api_key max_retries w =
    retry_loop (attempt (structured_reply json_loads)) (seq 0 max_retries) w.
Proof. intros H. unfold call_gemini_api_structured. rewrite H. reflexivity. Qed.

Lemma call_debate_with_key (api_key : string) (max_retries : nat) (w : world) :
  truthy (JStr api_key) = true ->
  call_gemini_api_debate api_key max_retries w =
    retry_loop (attempt debate_reply) (seq 0 max_retries) w.
Proof. intros H. unfold call_gemini_api_debate. rewrite H. reflexivity. Qed.

Lemma call_structured_without_key (json_loads : string -> option json)
    (api_key : string) (max_retries : nat) (w : world) :
  truthy (JStr api_key) = false ->
  call_gemini_api_structured json_loads api_key max_retries w =
    (Raise (ValueError "API Key is missing."), w).
Proof. intros H. unfold call_gemini_api_structured. rewrite H. reflexivity. Qed.

Lemma call_debate_without_key (api_key : string) (max_retries : nat) (w : world) :
  truthy (JStr api_key) = false ->
  call_gemini_api_debate api_key max_retries w =
    (Raise (ValueError "API Key is missing."), w).
Proof. intros H. unfold call_gemini_api_debate. rewrite H. reflexivity. Qed.

Lemma schedule_five : schedule 0 5 = backoff_schedule.
Proof. reflexivity. Qed.

(** C1, as the code has it: with a key in place, a call returns null
    exactly when all five attempts end in the retry handler, or when the
    first attempt that does not has an empty payload.  The handler takes a
    transport error, a 4xx or 5xx status and a body that is not JSON, and
    for the structured operation a payload text that does not decode; it
    does not take an empty payload, which ends the call with null at once.
    Any attempt that is not retried is the last request of the call, and
    attempts of these kinds let no exception out. *)
Theorem null_exactly_when_exhausted_or_empty
    (json_loads : string -> option json) (api_key : string) :
  truthy (JStr api_key) = true ->
  returns_null_exactly_when
    (call_gemini_api_structured json_loads api_key 5)
    (fun fate => transport_failure fate \/ payload_undecodable json_loads fate)
    (fun fate => empty_payload fate \/ null_payload json_loads fate)
  /\
  returns_null_exactly_when
    (call_gemini_api_debate api_key 5)
    transport_failure
    absent_text.
Proof.
  intros Hkey. split.
  - eapply contract_ext.
    + intros w. apply call_structured_with_key. exact Hkey.
    + apply loop_contract.
      * apply retried_structured_iff.
      * apply structured_null_iff.
  - eapply contract_ext.
    + intros w. apply call_debate_with_key. exact Hkey.
    + apply loop_contract.
      * apply retried_debate_iff.
      * apply debate_null_iff.
Qed.

Lemma null_exactly_when_exhausted_or_empty_witness :
  truthy (JStr "key") = true /\
  (returns_null_exactly_when
     (call_gemini_api_structured sample_loads "key" 5)
     (fun fate => transport_failure fate \/ payload_undecodable sample_loads fate)
     (fun fate => empty_payload fate \/ null_payload sample_loads fate)
   /\
   returns_null_exactly_when
     (call_gemini_api_debate "key" 5)
     transport_failure
     absent_text).
Proof.
  split.
  - reflexivity.
  - apply (null_exactly_when_exhausted_or_empty sample_loads "key"). reflexivity.
Defined.

(** C1 as stated fails: a first response without text makes both
    operations return null after a single request, although the later
    attempts would not have failed. *)
Lemma null_without_five_failures :
  fst (call_gemini_api_structured sample_loads "key" 5 empty_then_good) = Ret JNull
  /\ sent (snd (call_gemini_api_structured sample_loads "key" 5 empty_then_good)) = 1
  /\ fst (call_gemini_api_debate "key" 5 empty_then_good) = Ret JNull
  /\ sent (snd (call_gemini_api_debate "key" 5 empty_then_good)) = 1
  /\ spec_attempt_fails sample_loads (net empty_then_good 0) = true
  /\ ~ (forall k, k < 5 -> spec_attempt_fails sample_loads (net empty_then_good k) = true).
Proof.
  repeat split; try reflexivity.
  intros H. specialize (H 1 ltac:(lia)). vm_compute in H. discriminate.
Qed.

(** The schema names the item type of the questions and bounds their
    number nowhere. *)
Remark schema_without_length_bound :
  (q <- questions_schema ;; py_get q "items" JNull) = Ret (JObj [("type", JStr "STRING")])
  /\ (q <- questions_schema ;; py_get q "minItems" JNull) = Ret JNull
  /\ (q <- questions_schema ;; py_get q "maxItems" JNull) = Ret JNull.
Proof. repeat split. Qed.

(** C2, as the code has it: the structured operation returns whatever the
    payload text decodes to, on the attempt that delivers it; nothing looks
    at the questions in it. *)
Theorem decoded_payload_returned_unchecked
    (json_loads : string -> option json) (api_key : string) (w : world)
    (k : nat) (r : response) (body : json) (t : string) (v : json) :
  truthy (JStr api_key) = true ->
  k < 5 ->
  (forall j, j < k ->
     transport_failure (net w (sent w + j))
     \/ payload_undecodable json_loads (net w (sent w + j))) ->
  net w (sent w + k) = Some r ->
  ok_status r -> json_body r = Some body ->
  extract_text body = Ret (JStr t) -> t <> "" -> json_loads t = Some v ->
  fst (call_gemini_api_structured json_loads api_key 5 w) = Ret v
  /\ sent (snd (call_gemini_api_structured json_loads api_key 5 w)) = sent w + S k.
Proof.
  intros Hkey Hk Hbefore Hnet Hok Hb Ht Hne Hl.
  rewrite (call_structured_with_key json_loads api_key 5 w Hkey).
  assert (Hreply : structured_reply json_loads (posted_of (net w (sent w + k))) = Ret v).
  { rewrite Hnet. cbn [posted_of].
    rewrite (structured_reply_body json_loads r body Hok Hb), Ht. cbn [bind].
    apply truthy_JStr in Hne. rewrite Hne. cbn [py_json_loads]. rewrite Hl. reflexivity. }
  rewrite (retry_loop_stops (structured_reply json_loads) 5 0 w k Hk).
  - simpl. split; [exact Hreply | reflexivity].
  - intros j Hj. apply retried_structured_iff. apply Hbefore. exact Hj.
  - intros [e [He _]]. congruence.
Qed.

Lemma decoded_payload_returned_unchecked_witness :
  fst (call_gemini_api_structured sample_loads "key" 5
         (always (response_with_text two_questions_text))) = Ret two_questions
  /\ sent (snd (call_gemini_api_structured sample_loads "key" 5
                  (always (response_with_text two_questions_text)))) = 0 + 1.
Proof.
  apply (decoded_payload_returned_unchecked sample_loads "key"
           (always (response_with_text two_questions_text)) 0
           (response_with_text two_questions_text)
           (JObj [("candidates", JArr [JObj [("content",
              JObj [("parts", JArr [JObj [("text", JStr two_questions_text)]])])]])])
           two_questions_text two_questions).
  - reflexivity.
  - lia.
  - intros j Hj. lia.
  - reflexivity.
  - unfold ok_status. simpl. lia.
  - reflexivity.
  - reflexivity.
  - discriminate.
  - reflexivity.
Defined.

(** C2 as stated fails: a payload with two questions is accepted on the
    first attempt and returned as the result. *)
Lemma two_questions_accepted :
  fst (call_gemini_api_structured sample_loads "key" 5
         (always (response_with_text two_questions_text))) = Ret two_questions
  /\ sent (snd (call_gemini_api_structured sample_loads "key" 5
                  (always (response_with_text two_questions_text)))) = 1
  /\ question_count two_questions = Some 2
  /\ truthy two_questions = true.
Proof. repeat split. Qed.

(** C7: whatever the network does, the requests and sleeps of a call are
    an initial part of: request, sleep 1, request, sleep 2, request,
    sleep 4, request, sleep 8, request, sleep 16; at most five requests
    are sent; and a call whose five attempts all fail goes through the
    whole of it. *)
Theorem backoff_schedule_followed
    (json_loads : string -> option json) (api_key : string) (w : world) :
  let structured := snd (call_gemini_api_structured json_loads api_key 5 w) in
  let chat := snd (call_gemini_api_debate api_key 5 w) in
  (exists m, trace structured = trace w ++ firstn m backoff_schedule)
  /\ sent structured <= sent w + 5
  /\ (exists m, trace chat = trace w ++ firstn m backoff_schedule)
  /\ sent chat <= sent w + 5
  /\ (truthy (JStr api_key) = true ->
      (forall k, k < 5 -> transport_failure (net w (sent w + k))) ->
      trace structured = trace w ++ backoff_schedule
      /\ trace chat = trace w ++ backoff_schedule).
Proof.
  intros structured chat. subst structured chat.
  destruct (truthy (JStr api_key)) eqn:Hkey.
  - rewrite (call_structured_with_key json_loads api_key 5 w Hkey).
    rewrite (call_debate_with_key api_key 5 w Hkey).
    destruct (retry_loop_trace (structured_reply json_loads) 5 0 w) as [m1 [Ht1 Hs1]].
    destruct (retry_loop_trace debate_reply 5 0 w) as [m2 [Ht2 Hs2]].
    rewrite schedule_five in Ht1, Ht2.
    split; [exists m1; exact Ht1|]. split; [exact Hs1|].
    split; [exists m2; exact Ht2|]. split; [exact Hs2|].
    intros _ Hall. split.
    + rewrite retry_loop_exhausted; [reflexivity|].
      intros j Hj. apply retried_structured_iff. left. apply Hall. exact Hj.
    + rewrite retry_loop_exhausted; [reflexivity|].
      intros j Hj. apply retried_debate_iff. apply Hall. exact Hj.
  - rewrite (call_structured_without_key json_loads api_key 5 w Hkey).
    rewrite (call_debate_without_key api_key 5 w Hkey). simpl.
    split; [exists 0; rewrite app_nil_r; reflexivity|]. split; [lia|].
    split; [exists 0; rewrite app_nil_r; reflexivity|]. split; [lia|].
    intros H. discriminate.
Qed.

Lemma backoff_schedule_followed_witness :
  trace (snd (call_gemini_api_structured sample_loads "key" 5 offline))
    = [] ++ backoff_schedule
  /\ trace (snd (call_gemini_api_debate "key" 5 offline)) = [] ++ backoff_schedule.
Proof.
  apply (backoff_schedule_followed sample_loads "key" offline).
  - reflexivity.
  - intros k Hk. simpl. constructor.
Defined.

(** C10: the key that ships is empty, and with it both operations raise
    [ValueError] with the text "API Key is missing." and leave the world as
    it was: no request is sent and no sleep taken. *)
Theorem missing_key_raises_before_any_request
    (json_loads : string -> option json) (max_retries : nat) (w : world) :
  API_KEY = ""
  /\ call_gemini_api_structured json_loads API_KEY max_retries w
       = (Raise (ValueError "API Key is missing."), w)
  /\ call_gemini_api_debate API_KEY max_retries w
       = (Raise (ValueError "API Key is missing."), w).
Proof. repeat split. Qed.

(** ** The session *)

Lemma reachable_init (json_loads : string -> option json) (api_key : string) :
  reachable json_loads api_key init.
Proof. exists []. reflexivity. Qed.

Lemma reachable_dispatch (json_loads : string -> option json) (api_key : string)
    (s : VoicepalApp) (e : event) :
  reachable json_loads api_key s ->
  reachable json_loads api_key (dispatch json_loads api_key s e).
Proof.
  intros [events ->]. exists (events ++ [e]).
  unfold run. rewrite fold_left_app. reflexivity.
Qed.

(** What holds at the start and is kept by every event holds in every
    reachable state. *)
Lemma reachable_invariant (json_loads : string -> option json) (api_key : string)
    (P : VoicepalApp -> Prop) :
  P init ->
  (forall s e, P s -> P (dispatch json_loads api_key s e)) ->
  forall s, reachable json_loads api_key s -> P s.
Proof.
  intros Hinit Hstep s [events ->]. unfold run.
  generalize dependent init.
  induction events as [|e events IH]; intros s0 H0; simpl.
  - exact H0.
  - apply IH. apply Hstep. exact H0.
Qed.

(** *** The step counter *)

Ltac break_match :=
  match goal with
  | |- context [match ?x with _ => _ end] => destruct x eqn:?
  | |- context [if ?x then _ else _] => destruct x eqn:?
  end.

Lemma confirm_focus_step_inv (s : VoicepalApp) :
  step_inv s -> step_inv (snd (confirm_focus s)).
Proof.
  unfold step_inv, confirm_focus. intros H.
  repeat break_match; simpl; auto.
  rewrite length_app. simpl. lia.
Qed.

Lemma unchanged_step_inv (s s' : VoicepalApp) :
  current_step s' = current_step s ->
  conversation_history s' = conversation_history s ->
  step_inv s -> step_inv s'.
Proof. unfold step_inv. intros -> ->. auto. Qed.

Lemma send_rebuttal_counts (s : VoicepalApp) :
  current_step (snd (send_rebuttal_threaded s)) = current_step s
  /\ conversation_history (snd (send_rebuttal_threaded s)) = conversation_history s.
Proof. unfold send_rebuttal_threaded. repeat break_match; simpl; auto. Qed.

Lemma start_debate_counts (s : VoicepalApp) :
  current_step (snd (start_debate_mode s)) = current_step s
  /\ conversation_history (snd (start_debate_mode s)) = conversation_history s.
Proof.
  unfold start_debate_mode. repeat break_match; simpl; auto.
Qed.

Lemma create_question_cards_counts (questions : json) (s : VoicepalApp) :
  current_step (snd (create_question_cards questions s)) = current_step s
  /\ conversation_history (snd (create_question_cards questions s))
     = conversation_history s.
Proof. unfold create_question_cards. destruct (py_iter questions); simpl; auto. Qed.

Lemma update_guided_counts (raw_text : string) (result : json) (s : VoicepalApp) :
  current_step (snd (_update_guided_result raw_text result s)) = current_step s
  /\ conversation_history (snd (_update_guided_result raw_text result s))
     = conversation_history s.
Proof.
  unfold _update_guided_result.
  destruct (py_get result "corrected_text" (JStr "Correction failed."));
    [|simpl; auto].
  destruct (py_get result "challenge_questions" (JArr [])) as [questions|];
    [|simpl; auto].
  match goal with
  | |- context [create_question_cards questions ?x] =>
      pose proof (create_question_cards_counts questions x) as [H1 H2];
      destruct (create_question_cards questions x) as [o s3]
  end.
  simpl in H1, H2. destruct o; simpl; auto.
Qed.

Lemma run_thread_counts (json_loads : string -> option json) (api_key : string)
    (j : job) (s : VoicepalApp) (w : world) (unbound : bool) :
  current_step (snd (run_thread json_loads api_key j s w unbound)) = current_step s
  /\ conversation_history (snd (run_thread json_loads api_key j s w unbound))
     = conversation_history s.
Proof.
  unfold run_thread. destruct j.
  - unfold _run_thought_processing.
    destruct (fst (call_gemini_api_structured json_loads api_key 5 w)).
    + destruct (truthy a).
      * destruct (update_guided_counts raw_text a (with_thread None s)) as [-> ->].
        simpl. auto.
      * simpl. auto.
    + destruct unbound; simpl; auto.
  - unfold _run_blog_post_generation. repeat break_match; simpl; auto.
  - unfold _run_debate_turn. repeat break_match; simpl; auto.
Qed.

Lemma dispatch_step_inv (json_loads : string -> option json) (api_key : string)
    (s : VoicepalApp) (e : event) :
  step_inv s -> step_inv (dispatch json_loads api_key s e).
Proof.
  intros H. destruct e; simpl.
  - exact H.
  - destruct (nth_error (question_cards s) index); exact H.
  - apply confirm_focus_step_inv. exact H.
  - destruct (buttons s); [|exact H]. destruct (process_command s).
    + unfold process_input_threaded. break_match; exact H.
    + destruct (send_rebuttal_counts s) as [H1 H2].
      apply (unchanged_step_inv s); auto.
  - destruct (buttons s); [|exact H].
    unfold generate_blog_post_threaded. repeat break_match; exact H.
  - destruct (buttons s); [|exact H]. destruct (debate_command s).
    + destruct (start_debate_counts s) as [H1 H2].
      apply (unchanged_step_inv s); auto.
    + reflexivity.
  - destruct (thread s) as [j|]; [|exact H].
    destruct (run_thread_counts json_loads api_key j s w unbound) as [H1 H2].
    apply (unchanged_step_inv s); auto.
Qed.

(** C5: in every reachable state the step counter equals the number of
    confirmed steps plus one, with or without a pending result, and every
    event keeps it so. *)
Theorem current_step_counts_history
    (json_loads : string -> option json) (api_key : string) (s : VoicepalApp) :
  reachable json_loads api_key s ->
  current_step s = List.length (conversation_history s) + 1
  /\ forall e,
       current_step (dispatch json_loads api_key s e)
       = List.length (conversation_history (dispatch json_loads api_key s e)) + 1.
Proof.
  intros Hs.
  assert (H : step_inv s).
  { revert s Hs. apply reachable_invariant.
    - reflexivity.
    - apply dispatch_step_inv. }
  split; [exact H|].
  intros e. apply dispatch_step_inv. exact H.
Qed.

(** *** The debate *)

Lemma alternates_nil : alternates [].
Proof. intros i t H. destruct i; discriminate. Qed.

Lemma alternates_snoc (turns : list turn) (t : turn) :
  alternates turns ->
  turn_role t = (if Nat.even (List.length turns) then user else assistant) ->
  alternates (turns ++ [t]).
Proof.
  intros H Ht i t' Hn.
  destruct (Nat.lt_ge_cases i (List.length turns)) as [Hlt | Hge].
  - rewrite nth_error_app1 in Hn by exact Hlt. apply H. exact Hn.
  - rewrite nth_error_app2 in Hn by exact Hge.
    destruct (i - List.length turns) as [|d] eqn:Hd; simpl in Hn.
    + inversion Hn; subst t'. replace i with (List.length turns) by lia. exact Ht.
    + destruct d; discriminate.
Qed.

Lemma even_snoc {A : Type} (l : list A) (x : A) :
  Nat.even (List.length (l ++ [x])) = negb (Nat.even (List.length l)).
Proof.
  rewrite length_app. simpl. rewrite Nat.add_1_r, Nat.even_succ, <- Nat.negb_even. reflexivity.
Qed.

(** Events that touch none of the four fields the invariant reads. *)
Lemma debate_inv_same (s s' : VoicepalApp) :
  debate_history s' = debate_history s -> thread s' = thread s ->
  buttons s' = buttons s -> process_command s' = process_command s ->
  debate_inv s -> debate_inv s'.
Proof. unfold debate_inv. intros -> -> -> ->. auto. Qed.

Lemma idle_when_enabled (s : VoicepalApp) :
  debate_inv s -> buttons s = NORMAL ->
  thread s = None /\ Nat.even (List.length (debate_history s)) = true.
Proof.
  intros [_ [Hbusy [_ Hpar]]] Hb.
  destruct (thread s) as [j|] eqn:Ht.
  - assert (buttons s = DISABLED) by (apply Hbusy; discriminate). congruence.
  - auto.
Qed.

Lemma confirm_focus_debate_inv (s : VoicepalApp) :
  debate_inv s -> debate_inv (snd (confirm_focus s)).
Proof.
  intros H. unfold confirm_focus. repeat break_match; simpl; auto.
Qed.

Lemma process_input_debate_inv (s : VoicepalApp) :
  debate_inv s -> buttons s = NORMAL -> debate_inv (snd (process_input_threaded s)).
Proof.
  intros H Hb. destruct (idle_when_enabled s H Hb) as [Ht Heven].
  destruct H as [Halt [_ [Hcmd _]]].
  unfold process_input_threaded. break_match; simpl.
  - unfold debate_inv. rewrite Ht, Hb. repeat split; auto. intros C; congruence.
  - unfold debate_inv. simpl. repeat split; auto.
Qed.

Lemma generate_blog_debate_inv (s : VoicepalApp) :
  debate_inv s -> buttons s = NORMAL ->
  debate_inv (snd (generate_blog_post_threaded s)).
Proof.
  intros H Hb. destruct (idle_when_enabled s H Hb) as [Ht Heven].
  unfold generate_blog_post_threaded. repeat break_match; simpl; auto.
  destruct H as [Halt [_ [Hcmd _]]].
  unfold debate_inv. simpl. repeat split; auto.
Qed.

Lemma send_rebuttal_debate_inv (s : VoicepalApp) :
  debate_inv s -> buttons s = NORMAL -> process_command s = SendRebuttal ->
  debate_inv (snd (send_rebuttal_threaded s)).
Proof.
  intros H Hb Hc. destruct (idle_when_enabled s H Hb) as [Ht Heven].
  pose proof H as [Halt [_ [Hcmd _]]].
  assert (Hlen : Nat.ltb 1 (List.length (debate_history s)) = true).
  { apply Nat.ltb_lt. specialize (Hcmd Hc).
    destruct (debate_history s) as [|t1 [|t2 rest]]; simpl in *;
      [congruence | discriminate | lia]. }
  unfold send_rebuttal_threaded. rewrite Hlen. simpl andb.
  break_match; simpl; auto.
  unfold debate_inv. simpl. repeat split.
  - apply alternates_snoc; [exact Halt|]. simpl. rewrite Heven. reflexivity.
  - intros _ C. destruct (debate_history s); discriminate.
  - rewrite even_snoc, Heven. reflexivity.
Qed.

Lemma start_debate_debate_inv (s : VoicepalApp) :
  debate_inv s -> buttons s = NORMAL -> debate_inv (snd (start_debate_mode s)).
Proof.
  intros H Hb. unfold start_debate_mode.
  destruct (corrected_text_or_none (current_step_data s) JNull) as [argument|];
    [|exact H].
  break_match; [exact H|].
  unfold debate_inv. simpl. repeat split.
  - apply (alternates_snoc []); [apply alternates_nil | reflexivity].
  - discriminate.
Qed.

Lemma end_debate_debate_inv (s : VoicepalApp) :
  debate_inv s -> buttons s = NORMAL -> debate_inv (snd (end_debate s)).
Proof.
  intros H Hb. destruct (idle_when_enabled s H Hb) as [Ht _].
  unfold debate_inv. simpl. rewrite Ht. repeat split.
  - apply alternates_nil.
  - intros C. congruence.
  - discriminate.
Qed.

Lemma create_question_cards_view (questions : json) (s : VoicepalApp) :
  let s' := snd (create_question_cards questions s) in
  debate_history s' = debate_history s /\ thread s' = thread s
  /\ buttons s' = buttons s /\ process_command s' = process_command s.
Proof. unfold create_question_cards. destruct (py_iter questions); simpl; auto. Qed.

(** The callback of the structured call leaves the debate alone, keeps
    the thread field, and enables the buttons unless it crashes. *)
Lemma update_guided_view (raw_text : string) (result : json) (s : VoicepalApp) :
  let s' := snd (_update_guided_result raw_text result s) in
  debate_history s' = debate_history s /\ thread s' = thread s
  /\ process_command s' = process_command s.
Proof.
  unfold _update_guided_result.
  destruct (py_get result "corrected_text" (JStr "Correction failed."));
    [|simpl; auto].
  destruct (py_get result "challenge_questions" (JArr [])) as [questions|];
    [|simpl; auto].
  match goal with
  | |- context [create_question_cards questions ?x] =>
      pose proof (create_question_cards_view questions x) as [H1 [H2 [H3 H4]]];
      destruct (create_question_cards questions x) as [o s3]
  end.
  simpl in H1, H2, H3, H4. destruct o; simpl; auto.
Qed.

(** A worker other than the debate's ends without touching the debate. *)
Lemma quiet_worker_debate_inv (s s' : VoicepalApp) :
  debate_history s' = debate_history s -> thread s' = None ->
  process_command s' = process_command s ->
  debate_inv s -> thread s <> Some JobDebate -> thread s <> None ->
  debate_inv s'.
Proof.
  intros Hd Ht Hc [Halt [_ [Hcmd Hpar]]] Hj Hsome.
  unfold debate_inv. rewrite Hd, Ht, Hc. repeat split; auto.
  - intros C. congruence.
  - intros _. destruct (thread s) as [[| |]|]; congruence.
Qed.

Lemma run_thread_debate_inv (json_loads : string -> option json) (api_key : string)
    (j : job) (s : VoicepalApp) (w : world) (unbound : bool) :
  debate_inv s -> thread s = Some j ->
  debate_inv (snd (run_thread json_loads api_key j s w unbound)).
Proof.
  intros H Ht. unfold run_thread. destruct j.
  - apply (quiet_worker_debate_inv s); try exact H; try congruence.
    + unfold _run_thought_processing. repeat break_match; simpl; auto.
      match goal with
      | |- context [_update_guided_result ?r ?a ?x] =>
          destruct (update_guided_view r a x) as [H1 _]; exact H1
      end.
    + unfold _run_thought_processing. repeat break_match; simpl; auto.
      match goal with
      | |- context [_update_guided_result ?r ?a ?x] =>
          destruct (update_guided_view r a x) as [_ [H1 _]]; exact H1
      end.
    + unfold _run_thought_processing. repeat break_match; simpl; auto.
      match goal with
      | |- context [_update_guided_result ?r ?a ?x] =>
          destruct (update_guided_view r a x) as [_ [_ H1]]; exact H1
      end.
  - apply (quiet_worker_debate_inv s); try exact H; try congruence;
      unfold _run_blog_post_generation; repeat break_match; simpl; auto.
  - destruct H as [Halt [Hbusy [Hcmd Hpar]]]. rewrite Ht in Hpar.
    assert (Hb : buttons s = DISABLED) by (apply Hbusy; congruence).
    unfold _run_debate_turn.
    destruct (fst (call_gemini_api_debate api_key 5 w)) as [reply|e].
    + unfold debate_inv. simpl. repeat split.
      * apply alternates_snoc; [exact Halt|]. simpl. rewrite Hpar. reflexivity.
      * intros C. congruence.
      * intros _ C. destruct (debate_history s); discriminate.
      * intros _. rewrite even_snoc, Hpar. reflexivity.
    + destruct (is_ValueError e).
      * unfold debate_inv. simpl. repeat split.
        -- apply alternates_snoc; [exact Halt|]. simpl. rewrite Hpar. reflexivity.
        -- intros C. congruence.
        -- intros _ C. destruct (debate_history s); discriminate.
        -- intros _. rewrite even_snoc, Hpar. reflexivity.
      * unfold debate_inv. simpl. repeat split; auto; intros C; congruence.
Qed.

Lemma init_debate_inv : debate_inv init.
Proof.
  unfold debate_inv. simpl. repeat split.
  - apply alternates_nil.
  - intros C. congruence.
  - discriminate.
Qed.

Lemma dispatch_debate_inv (json_loads : string -> option json) (api_key : string)
    (s : VoicepalApp) (e : event) :
  debate_inv s -> debate_inv (dispatch json_loads api_key s e).
Proof.
  intros H. destruct e; simpl.
  - revert H. apply debate_inv_same; reflexivity.
  - destruct (nth_error (question_cards s) index); [|exact H].
    revert H. apply debate_inv_same; reflexivity.
  - apply confirm_focus_debate_inv. exact H.
  - destruct (buttons s) eqn:Hb; [|exact H]. destruct (process_command s) eqn:Hc.
    + apply process_input_debate_inv; assumption.
    + apply send_rebuttal_debate_inv; assumption.
  - destruct (buttons s) eqn:Hb; [|exact H].
    apply generate_blog_debate_inv; assumption.
  - destruct (buttons s) eqn:Hb; [|exact H]. destruct (debate_command s).
    + apply start_debate_debate_inv; assumption.
    + apply end_debate_debate_inv; assumption.
  - destruct (thread s) as [j|] eqn:Ht; [|exact H].
    apply run_thread_debate_inv; assumption.
Qed.

(** While nothing is recorded, that is in the loop [dispatch], the buttons
    that [set_buttons_state] has disabled deliver no click while a worker
    runs, so one worker runs at a time.  There the turns of the debate
    alternate in every reachable state, beginning with the user, and every
    event leaves them so. *)
Lemma turns_alternate_one_worker_at_a_time
    (json_loads : string -> option json) (api_key : string) (s : VoicepalApp) :
  reachable json_loads api_key s ->
  alternates (debate_history s)
  /\ forall e, alternates (debate_history (dispatch json_loads api_key s e)).
Proof.
  intros Hs.
  assert (H : debate_inv s).
  { revert s Hs. apply reachable_invariant.
    - exact init_debate_inv.
    - apply dispatch_debate_inv. }
  split.
  - apply H.
  - intros e. apply (dispatch_debate_inv json_loads api_key s e H).
Qed.

Lemma current_step_counts_history_witness :
  reachable sample_loads "key" after_confirm
  /\ current_step after_confirm = List.length (conversation_history after_confirm) + 1
  /\ forall e,
       current_step (dispatch sample_loads "key" after_confirm e)
       = List.length (conversation_history (dispatch sample_loads "key" after_confirm e)) + 1.
Proof.
  assert (H : reachable sample_loads "key" after_confirm).
  { exists (thought_processed ++ [ClickCard 1; ClickConfirm]). reflexivity. }
  split; [exact H|].
  apply (current_step_counts_history sample_loads "key" after_confirm H).
Defined.

(** C8: with the microphone on, the turns of the debate do not always
    alternate.  The debate is started, and its worker runs with the
    buttons disabled.  A phrase heard at that moment is put on the queue,
    and [process_transcription_from_queue] enables the Process button
    before it looks at anything else.  The click on it runs
    [send_rebuttal_threaded], which adds no turn of the user to a debate of
    one turn and starts a second worker.  When both workers have their
    reply, the debate holds two turns of the assistant in a row. *)
Theorem second_worker_breaks_alternation :
  workers first_worker_running = [JobDebate]
  /\ buttons (gui first_worker_running) = DISABLED
  /\ workers (window_run sample_loads "key" second_worker_started)
     = [JobDebate; JobDebate]
  /\ debate_history (gui (window_run sample_loads "key" second_worker_started))
     = [{| turn_role := user; turn_text := JStr "X" |}]
  /\ debate_history (gui two_replies)
     = [{| turn_role := user; turn_text := JStr "X" |};
        {| turn_role := assistant; turn_text := JStr "No." |};
        {| turn_role := assistant; turn_text := JStr "No." |}]
  /\ ~ alternates (debate_history (gui two_replies)).
Proof.
  repeat split; try reflexivity.
  intros H.
  specialize (H 2 {| turn_role := assistant; turn_text := JStr "No." |} eq_refl).
  discriminate.
Qed.

(** *** Single operations *)

(** C4: [confirm_focus] needs a selected question and a pending result.
    When either is absent (or empty) it warns and changes nothing.  It
    succeeds only when both are there, and then it appends the step with
    the current number, the corrected text of the pending result and the
    selected question, moves the counter on by one, and clears the pending
    result and the selection. *)
Theorem confirm_focus_contract (s : VoicepalApp) :
  (truthy (selected_question s) = false \/ truthy (current_step_data s) = false ->
   confirm_focus s = (Warned "Incomplete Data", s))
  /\ (fst (confirm_focus s) = Done ->
      truthy (selected_question s) = true
      /\ exists fields, current_step_data s = JObj fields /\ fields <> [])
  /\ (forall fields,
        truthy (selected_question s) = true ->
        current_step_data s = JObj fields -> fields <> [] ->
        fst (confirm_focus s) = Done
        /\ conversation_history (snd (confirm_focus s))
           = conversation_history s ++
             [{| step := current_step s;
                 thought := dict_get fields "corrected_text" (JStr "N/A");
                 focus_question := selected_question s |}]
        /\ current_step (snd (confirm_focus s)) = current_step s + 1
        /\ current_step_data (snd (confirm_focus s)) = JNull
        /\ selected_question (snd (confirm_focus s)) = JNull).
Proof.
  unfold confirm_focus. split; [|split].
  - intros [H | H]; rewrite H; simpl; [reflexivity|].
    rewrite orb_true_r. reflexivity.
  - destruct (truthy (selected_question s)) eqn:Hq; simpl; [|discriminate].
    destruct (truthy (current_step_data s)) eqn:Hp; simpl; [|discriminate].
    destruct (current_step_data s) as [| | | | |fields]; simpl; try discriminate.
    intros _. split; [reflexivity|]. exists fields. split; [reflexivity|].
    destruct fields; [discriminate Hp | discriminate].
  - intros fields Hq Hp Hne. rewrite Hq, Hp.
    destruct fields as [|f fields]; [congruence|]. simpl.
    repeat split.
Qed.

Lemma confirm_focus_contract_witness :
  truthy (selected_question focus_selected) = true
  /\ current_step_data focus_selected = three_questions
  /\ fst (confirm_focus focus_selected) = Done
  /\ conversation_history (snd (confirm_focus focus_selected))
     = [] ++ [{| step := 1; thought := JStr "X"; focus_question := JStr "b" |}]
  /\ current_step (snd (confirm_focus focus_selected)) = 1 + 1
  /\ current_step_data (snd (confirm_focus focus_selected)) = JNull
  /\ selected_question (snd (confirm_focus focus_selected)) = JNull.
Proof.
  split; [reflexivity|]. split; [reflexivity|].
  apply (proj2 (proj2 (confirm_focus_contract focus_selected))
           [("corrected_text", JStr "X");
            ("challenge_questions", JArr [JStr "a"; JStr "b"; JStr "c"])]).
  - reflexivity.
  - reflexivity.
  - discriminate.
Defined.

(** C9: [end_debate] always succeeds, and after it the mode is the guided
    one, the debate and the history are empty, the counter is 1 and no
    result is pending. *)
Theorem end_debate_resets (s : VoicepalApp) :
  fst (end_debate s) = Done
  /\ is_debating (snd (end_debate s)) = false
  /\ process_command (snd (end_debate s)) = ProcessInput
  /\ debate_history (snd (end_debate s)) = []
  /\ conversation_history (snd (end_debate s)) = []
  /\ current_step (snd (end_debate s)) = 1
  /\ current_step_data (snd (end_debate s)) = JNull.
Proof. repeat split. Qed.

(** C6, as the code has it: [start_debate_mode] takes its argument from
    the pending result only.  With a pending result whose corrected text is
    there, non-empty and not "N/A", it switches to the debate, makes that
    text the single user turn and starts the worker for the first reply.
    Without a pending result it warns and changes nothing, whatever steps
    have been confirmed; so it does when the corrected text is missing or
    empty, or is "N/A". *)
Theorem start_debate_contract (s : VoicepalApp) :
  (forall fields argument,
     current_step_data s = JObj fields -> fields <> [] ->
     dict_get fields "corrected_text" JNull = argument ->
     truthy argument = true -> eq_str argument "N/A" = false ->
     fst (start_debate_mode s) = Done
     /\ is_debating (snd (start_debate_mode s)) = true
     /\ debate_history (snd (start_debate_mode s))
        = [{| turn_role := user; turn_text := argument |}]
     /\ thread (snd (start_debate_mode s)) = Some JobDebate
     /\ conversation_history (snd (start_debate_mode s)) = conversation_history s)
  /\ (current_step_data s = JNull ->
      start_debate_mode s = (Warned "No Argument", s))
  /\ (forall fields argument,
        current_step_data s = JObj fields ->
        dict_get fields "corrected_text" JNull = argument ->
        truthy argument = false \/ eq_str argument "N/A" = true ->
        start_debate_mode s = (Warned "No Argument", s)).
Proof.
  unfold start_debate_mode, corrected_text_or_none. split; [|split].
  - intros fields argument Hp Hne Hget Htr Hna. rewrite Hp.
    destruct fields as [|f fields]; [congruence|].
    cbn [truthy py_get]. rewrite Hget, Htr, Hna. simpl. repeat split.
  - intros Hp. rewrite Hp. reflexivity.
  - intros fields argument Hp Hget H. rewrite Hp.
    destruct fields as [|f fields].
    + reflexivity.
    + cbn [truthy py_get]. rewrite Hget.
      destruct H as [H | H]; rewrite H; simpl; [reflexivity|].
      rewrite orb_true_r. reflexivity.
Qed.

Lemma start_debate_contract_witness :
  current_step_data after_thought = three_questions
  /\ fst (start_debate_mode after_thought) = Done
  /\ is_debating (snd (start_debate_mode after_thought)) = true
  /\ debate_history (snd (start_debate_mode after_thought))
     = [{| turn_role := user; turn_text := JStr "X" |}]
  /\ thread (snd (start_debate_mode after_thought)) = Some JobDebate
  /\ conversation_history (snd (start_debate_mode after_thought))
     = conversation_history after_thought.
Proof.
  split; [reflexivity|].
  apply (proj1 (start_debate_contract after_thought)
           [("corrected_text", JStr "X");
            ("challenge_questions", JArr [JStr "a"; JStr "b"; JStr "c"])]
           (JStr "X")).
  - reflexivity.
  - discriminate.
  - reflexivity.
  - reflexivity.
  - reflexivity.
Defined.

(** C6 as stated fails: after a step has been confirmed with the text "X"
    and no result is pending, [start_debate_mode] warns and changes
    nothing; it does not fall back on the confirmed step. *)
Lemma no_debate_from_confirmed_step :
  conversation_history after_confirm
    = [{| step := 1; thought := JStr "X"; focus_question := JStr "b" |}]
  /\ current_step_data after_confirm = JNull
  /\ start_debate_mode after_confirm = (Warned "No Argument", after_confirm)
  /\ is_debating after_confirm = false
  /\ debate_history after_confirm = [].
Proof. repeat split. Qed.

(** C3, as the code has it: when the chat call comes back with null (or
    any empty reply), [_run_debate_turn] puts a fixed text in its place and
    appends it as the assistant's turn; the turns before it, the user's
    rebuttal among them, stay, and nothing else reports the failure. *)
Theorem null_reply_becomes_assistant_turn
    (api_key : string) (s : VoicepalApp) (w : world) (unbound : bool) (reply : json) :
  fst (call_gemini_api_debate api_key 5 w) = Ret reply ->
  truthy reply = false ->
  fst (_run_debate_turn api_key s w unbound) = Done
  /\ debate_history (snd (_run_debate_turn api_key s w unbound))
     = debate_history s ++
       [{| turn_role := assistant;
           turn_text := JStr "AI failed to generate a rebuttal after multiple retries. Try ending and restarting the debate." |}].
Proof.
  intros Hcall Hfalsy. unfold _run_debate_turn.
  rewrite Hcall, Hfalsy. simpl. split; reflexivity.
Qed.

Lemma null_reply_becomes_assistant_turn_witness :
  fst (call_gemini_api_debate "key" 5 offline) = Ret JNull
  /\ fst (_run_debate_turn "key" rebuttal_sent offline false) = Done
  /\ debate_history (snd (_run_debate_turn "key" rebuttal_sent offline false))
     = debate_history rebuttal_sent ++
       [{| turn_role := assistant;
           turn_text := JStr "AI failed to generate a rebuttal after multiple retries. Try ending and restarting the debate." |}].
Proof.
  split; [reflexivity|].
  apply (null_reply_becomes_assistant_turn "key" rebuttal_sent offline false JNull);
    reflexivity.
Defined.

(** C3 as stated fails: all five attempts of the chat call fail, the call
    returns null, and the debate has an assistant turn more than before
    the call. *)
Lemma failed_turn_adds_assistant_turn :
  fst (call_gemini_api_debate "key" 5 offline) = Ret JNull
  /\ sent (snd (call_gemini_api_debate "key" 5 offline)) = 5
  /\ debate_history rebuttal_sent
     = [{| turn_role := user; turn_text := JStr "X" |};
        {| turn_role := assistant; turn_text := JStr "No." |};
        {| turn_role := user; turn_text := JStr "But yes" |}]
  /\ thread rebuttal_sent = Some JobDebate
  /\ debate_history (dispatch sample_loads "key" rebuttal_sent (ThreadDone offline false))
     = [{| turn_role := user; turn_text := JStr "X" |};
        {| turn_role := assistant; turn_text := JStr "No." |};
        {| turn_role := user; turn_text := JStr "But yes" |};
        {| turn_role := assistant;
           turn_text := JStr "AI failed to generate a rebuttal after multiple retries. Try ending and restarting the debate." |}]
  /\ debate_history (dispatch sample_loads "key" rebuttal_sent (ThreadDone offline false))
     <> debate_history rebuttal_sent.
Proof.
  repeat split. vm_compute. discriminate.
Qed.

(** * Further properties of the code *)

(** ** The client beyond five attempts *)



Lemma pow2_pos (n : nat) : 0 < 2 ^ n.
Proof. induction n; simpl; lia. Qed.






(** X2: whatever the key, the number of retries and the network, neither
    operation lets out an exception its handler lists: a connection error,
    an HTTP error status or a JSON decoding error never reaches the
    caller. *)
Theorem transient_errors_never_escape
    (json_loads : string -> option json) (api_key : string)
    (max_retries : nat) (w : world) (e : exn) :
  (fst (call_gemini_api_structured json_loads api_key max_retries w) = Raise e ->
   caught e = false)
  /\ (fst (call_gemini_api_debate api_key max_retries w) = Raise e ->
      caught e = false).
Proof.
  assert (Hloop : forall reply,
            fst (retry_loop (attempt reply) (seq 0 max_retries) w) = Raise e ->
            caught e = false).
  { intros reply.
    destruct (retry_loop_cases reply max_retries 0 w)
      as [[_ Heq] | [k [_ [_ [Hnot Heq]]]]]; rewrite Heq; simpl.
    - discriminate.
    - intros He. destruct (caught e) eqn:Hc; [|reflexivity].
      exfalso. apply Hnot. exists e. auto. }
  destruct (truthy (JStr api_key)) eqn:Hkey.
  - rewrite (call_structured_with_key json_loads api_key max_retries w Hkey).
    rewrite (call_debate_with_key api_key max_retries w Hkey).
    split; apply Hloop.
  - rewrite (call_structured_without_key json_loads api_key max_retries w Hkey).
    rewrite (call_debate_without_key api_key max_retries w Hkey).
    simpl. split; intros H; inversion H; reflexivity.
Qed.

Lemma transient_errors_never_escape_witness :
  fst (call_gemini_api_debate "key" 5
         (always {| status_code := 200;
                    json_body := Some (JObj [("candidates", JArr [])]) |}))
    = Raise IndexError
  /\ caught IndexError = false.
Proof.
  split; [reflexivity|].
  apply (proj2 (transient_errors_never_escape sample_loads "key" 5
                  (always {| status_code := 200;
                             json_body := Some (JObj [("candidates", JArr [])]) |})
                  IndexError)).
  reflexivity.
Defined.

(** X3: a result other than null is read off the response to the last
    request the call sent: that response has a status outside 400..599 and
    a JSON body; the chat operation returns the text found in it, the
    structured operation what [json.loads] makes of that text. *)
Theorem result_comes_from_last_response
    (json_loads : string -> option json) (api_key : string)
    (max_retries : nat) (w : world) (v : json) :
  v <> JNull ->
  (fst (call_gemini_api_structured json_loads api_key max_retries w) = Ret v ->
   exists r body t,
     net w (sent (snd (call_gemini_api_structured json_loads api_key max_retries w)) - 1)
       = Some r
     /\ ok_status r /\ json_body r = Some body
     /\ extract_text body = Ret (JStr t) /\ t <> "" /\ json_loads t = Some v)
  /\ (fst (call_gemini_api_debate api_key max_retries w) = Ret v ->
      exists r body,
        net w (sent (snd (call_gemini_api_debate api_key max_retries w)) - 1) = Some r
        /\ ok_status r /\ json_body r = Some body
        /\ extract_text body = Ret v).
Proof.
  intros Hv.
  destruct (truthy (JStr api_key)) eqn:Hkey.
  2:{ rewrite (call_structured_without_key json_loads api_key max_retries w Hkey).
      rewrite (call_debate_without_key api_key max_retries w Hkey).
      simpl. split; discriminate. }
  rewrite (call_structured_with_key json_loads api_key max_retries w Hkey).
  rewrite (call_debate_with_key api_key max_retries w Hkey).
  split.
  - destruct (retry_loop_cases (structured_reply json_loads) max_retries 0 w)
      as [[_ Heq] | [k [_ [_ [_ Heq]]]]]; rewrite Heq; simpl.
    + intros H. inversion H. congruence.
    + replace (sent w + S k - 1) with (sent w + k) by lia.
      intros H.
      destruct (fate_cases (net w (sent w + k))) as [| r Hs | r Hok Hb | r body Hok Hb];
        cbn [posted_of] in H.
      * discriminate.
      * rewrite (structured_reply_status json_loads r Hs) in H. discriminate.
      * rewrite (structured_reply_no_json json_loads r Hok Hb) in H. discriminate.
      * rewrite (structured_reply_body json_loads r body Hok Hb) in H.
        destruct (extract_text body) as [json_text|] eqn:Ht; [|discriminate].
        cbn [bind] in H. destruct (truthy json_text) eqn:Htr.
        -- destruct json_text as [| | |t| |]; simpl in H; try discriminate.
           destruct (json_loads t) as [v'|] eqn:Hl; [|discriminate].
           inversion H; subst v'.
           exists r, body, t. repeat split; auto.
           apply truthy_JStr. exact Htr.
        -- inversion H. congruence.
  - destruct (retry_loop_cases debate_reply max_retries 0 w)
      as [[_ Heq] | [k [_ [_ [_ Heq]]]]]; rewrite Heq; simpl.
    + intros H. inversion H. congruence.
    + replace (sent w + S k - 1) with (sent w + k) by lia.
      intros H.
      destruct (fate_cases (net w (sent w + k))) as [| r Hs | r Hok Hb | r body Hok Hb];
        cbn [posted_of] in H.
      * discriminate.
      * rewrite (debate_reply_status r Hs) in H. discriminate.
      * rewrite (debate_reply_no_json r Hok Hb) in H. discriminate.
      * rewrite (debate_reply_body r body Hok Hb) in H.
        exists r, body. repeat split; auto.
Qed.

Lemma result_comes_from_last_response_witness :
  two_questions <> JNull
  /\ exists r body t,
       net (always (response_with_text two_questions_text))
         (sent (snd (call_gemini_api_structured sample_loads "key" 5
                       (always (response_with_text two_questions_text)))) - 1)
         = Some r
       /\ ok_status r /\ json_body r = Some body
       /\ extract_text body = Ret (JStr t) /\ t <> "" /\ sample_loads t = Some two_questions.
Proof.
  assert (H : two_questions <> JNull) by discriminate.
  split; [exact H|].
  apply (proj1 (result_comes_from_last_response sample_loads "key" 5
                  (always (response_with_text two_questions_text)) two_questions H)).
  reflexivity.
Defined.

(** ** What reaches the workers *)

Lemma lstrip_all_space (ws rest : string) :
  all_space ws = true -> lstrip (String.append ws rest) = lstrip rest.
Proof.
  induction ws as [|c ws IH]; simpl; intros H; [reflexivity|].
  apply andb_true_iff in H. destruct H as [Hc Hws].
  rewrite Hc. apply IH. exact Hws.
Qed.

Lemma lstrip_blank (ws : string) : all_space ws = true -> lstrip ws = "".
Proof.
  induction ws as [|c ws IH]; simpl; intros H; [reflexivity|].
  apply andb_true_iff in H. destruct H as [Hc Hws].
  rewrite Hc. apply IH. exact Hws.
Qed.

Lemma all_space_app (a b : string) :
  all_space a = true -> all_space b = true -> all_space (String.append a b) = true.
Proof.
  induction a as [|c a IH]; simpl; intros Ha Hb; [exact Hb|].
  apply andb_true_iff in Ha. destruct Ha as [Hc Ha].
  rewrite Hc. simpl. apply IH; assumption.
Qed.

(** Trailing whitespace goes, what ends in a visible character stays. *)
Lemma rstrip_keeps_visible (p : string) : forall rest,
  ends_visible p = true ->
  exists kept, rstrip (String.append p rest) = String.append p kept.
Proof.
  induction p as [|c p IH]; intros rest H; [discriminate|].
  simpl. destruct p as [|c' p'].
  - simpl in H. apply negb_true_iff in H. rewrite H. simpl.
    exists (rstrip rest). reflexivity.
  - destruct (IH rest H) as [kept Hk]. rewrite Hk.
    exists kept. simpl. rewrite andb_false_r. reflexivity.
Qed.

Lemma prefix_append (p rest : string) : prefix p (String.append p rest) = true.
Proof.
  induction p as [|c p IH]; simpl.
  - destruct rest; reflexivity.
  - rewrite IH. destruct (ascii_dec c c); [reflexivity | congruence].
Qed.

Lemma append_assoc (a b c : string) :
  String.append (String.append a b) c = String.append a (String.append b c).
Proof. induction a as [|x a IH]; simpl; [reflexivity | rewrite IH; reflexivity]. Qed.

(** What [strip] makes of the input box when it holds nothing visible,
    and when it holds a placeholder after optional whitespace. *)
Lemma strip_blank_input (s : VoicepalApp) :
  all_space (input_text s) = true -> strip (input_get s) = "".
Proof.
  intros H. unfold strip, input_get.
  rewrite lstrip_blank; [reflexivity|].
  apply all_space_app; [exact H | reflexivity].
Qed.

Lemma strip_placeholder_input (s : VoicepalApp) (ws p rest : string) :
  all_space ws = true -> In p placeholders ->
  input_text s = String.append ws (String.append p rest) ->
  exists kept, strip (input_get s) = String.append p kept.
Proof.
  intros Hws Hp Heq. unfold strip, input_get. rewrite Heq.
  rewrite !append_assoc, lstrip_all_space by exact Hws.
  assert (Hl : forall x, lstrip (String.append p x) = String.append p x).
  { intros x. destruct Hp as [<- | [<- | [<- | []]]]; reflexivity. }
  rewrite Hl. apply rstrip_keeps_visible.
  destruct Hp as [<- | [<- | [<- | []]]]; reflexivity.
Qed.

Lemma process_input_placeholder_prefixed (s : VoicepalApp) (ws p rest : string) :
  all_space ws = true -> In p placeholders ->
  input_text s = String.append ws (String.append p rest) ->
  process_input_threaded s = (Warned "Missing Input", s).
Proof.
  intros Hws Hp Heq. unfold process_input_threaded.
  destruct (strip_placeholder_input s ws p rest Hws Hp Heq) as [kept Hk].
  rewrite Hk.
  destruct Hp as [<- | [<- | [<- | []]]]; rewrite prefix_append;
    rewrite ?orb_true_r; reflexivity.
Qed.

(** X4: the Process button starts no request for an input box that holds
    only ASCII whitespace, or a placeholder (after optional ASCII
    whitespace, and whatever follows it): the user is warned and nothing
    changes.  When a request is started on ASCII text, the worker gets the
    stripped text, which is not empty, and the conversation is as
    before. *)
Theorem process_input_guards (s : VoicepalApp) :
  (all_space (input_text s) = true ->
   process_input_threaded s = (Warned "Missing Input", s))
  /\ (forall ws p rest,
        all_space ws = true -> In p placeholders ->
        input_text s = String.append ws (String.append p rest) ->
        process_input_threaded s = (Warned "Missing Input", s))
  /\ (is_ascii (input_text s) = true ->
      fst (process_input_threaded s) = Done ->
      thread (snd (process_input_threaded s)) = Some (JobThought (strip (input_get s)))
      /\ strip (input_get s) <> ""
      /\ buttons (snd (process_input_threaded s)) = DISABLED
      /\ same_conversation s (snd (process_input_threaded s))).
Proof.
  split; [|split].
  - intros H. unfold process_input_threaded.
    rewrite (strip_blank_input s H). reflexivity.
  - apply process_input_placeholder_prefixed.
  - intros _. unfold process_input_threaded.
    destruct (String.eqb_spec (strip (input_get s)) "") as [He | Hne];
      [simpl; discriminate|].
    simpl. repeat break_match; simpl; try discriminate.
    intros _. unfold same_conversation. simpl. repeat split; auto.
Qed.

Lemma process_input_guards_witness :
  (all_space (input_text (with_input_text "   " init)) = true
   /\ process_input_threaded (with_input_text "   " init)
      = (Warned "Missing Input", with_input_text "   " init))
  /\ (is_ascii (input_text (with_input_text "  Work less. " init)) = true
      /\ fst (process_input_threaded (with_input_text "  Work less. " init)) = Done
      /\ thread (snd (process_input_threaded (with_input_text "  Work less. " init)))
         = Some (JobThought "Work less.")).
Proof.
  split.
  - split; [reflexivity|].
    apply (proj1 (process_input_guards (with_input_text "   " init))). reflexivity.
  - split; [reflexivity|]. split; [reflexivity|].
    apply (proj1 (proj2 (proj2 (process_input_guards (with_input_text "  Work less. " init)))
                   eq_refl eq_refl)).
Defined.

Lemma append_empty (a : string) : String.append a "" = a.
Proof. induction a as [|c a IH]; simpl; [reflexivity | rewrite IH; reflexivity]. Qed.

Lemma process_input_on_placeholder (s : VoicepalApp) (p : string) :
  In p placeholders -> input_text s = p ->
  process_input_threaded s = (Warned "Missing Input", s).
Proof.
  intros Hp Heq.
  apply (process_input_placeholder_prefixed s "" p ""); auto.
  simpl. rewrite append_empty. exact Heq.
Qed.

Lemma send_rebuttal_on_placeholder (s : VoicepalApp) :
  1 < List.length (debate_history s) ->
  input_text s = "Enter your counter-argument here..." ->
  send_rebuttal_threaded s = (Warned "Missing Rebuttal", s).
Proof.
  intros Hlen Heq. unfold send_rebuttal_threaded, input_get.
  apply Nat.ltb_lt in Hlen. rewrite Hlen, Heq. reflexivity.
Qed.

Lemma create_question_cards_input (questions : json) (s : VoicepalApp) :
  input_text (snd (create_question_cards questions s)) = input_text s.
Proof. unfold create_question_cards. destruct (py_iter questions); reflexivity. Qed.

Lemma update_guided_done_input (raw_text : string) (result : json) (s : VoicepalApp) :
  fst (_update_guided_result raw_text result s) = Done ->
  input_text (snd (_update_guided_result raw_text result s))
    = "Enter your response here...".
Proof.
  unfold _update_guided_result.
  destruct (py_get result "corrected_text" (JStr "Correction failed."));
    [|discriminate].
  destruct (py_get result "challenge_questions" (JArr [])) as [questions|];
    [|discriminate].
  match goal with
  | |- context [create_question_cards questions ?x] =>
      pose proof (create_question_cards_input questions x) as H;
      destruct (create_question_cards questions x) as [o s3]
  end.
  simpl in H. destruct o; simpl; try discriminate; intros _; exact H.
Qed.

(** X5: the placeholder a handler leaves in the input box is never taken
    for input.  Right after [end_debate], after a confirmed focus and
    after a processed thought, a click on Process starts nothing and warns;
    and once the opponent's turn has been appended, Send Rebuttal with the
    box untouched warns and adds no turn. *)
Theorem placeholders_are_not_input
    (key : string) (s : VoicepalApp) (w : world) (unbound : bool)
    (raw_text : string) (result : json) :
  process_input_threaded (snd (end_debate s))
    = (Warned "Missing Input", snd (end_debate s))
  /\ (fst (confirm_focus s) = Done ->
      process_input_threaded (snd (confirm_focus s))
        = (Warned "Missing Input", snd (confirm_focus s)))
  /\ (fst (_update_guided_result raw_text result s) = Done ->
      process_input_threaded (snd (_update_guided_result raw_text result s))
        = (Warned "Missing Input", snd (_update_guided_result raw_text result s)))
  /\ (debate_history s <> [] ->
      (forall e, fst (call_gemini_api_debate key 5 w) = Raise e -> is_ValueError e = true) ->
      send_rebuttal_threaded (snd (_run_debate_turn key s w unbound))
        = (Warned "Missing Rebuttal", snd (_run_debate_turn key s w unbound))).
Proof.
  split; [|split; [|split]].
  - apply (process_input_on_placeholder _ "Start a new thought here...");
      [simpl; auto | reflexivity].
  - intros H.
    apply (process_input_on_placeholder _ "Enter your response here...");
      [simpl; auto|].
    revert H. unfold confirm_focus. repeat break_match; simpl; try discriminate.
    reflexivity.
  - intros H.
    apply (process_input_on_placeholder _ "Enter your response here...");
      [simpl; auto|].
    apply update_guided_done_input. exact H.
  - intros Hne Hcall.
    assert (Hlen : forall x, 1 < List.length (debate_history s ++ [x])).
    { intros x. rewrite length_app. simpl.
      destruct (debate_history s); [congruence | simpl; lia]. }
    unfold _run_debate_turn.
    destruct (fst (call_gemini_api_debate key 5 w)) as [reply|e].
    + apply send_rebuttal_on_placeholder; [apply Hlen | reflexivity].
    + rewrite (Hcall e eq_refl).
      apply send_rebuttal_on_placeholder; [apply Hlen | reflexivity].
Qed.

Lemma placeholders_are_not_input_witness :
  fst (confirm_focus focus_selected) = Done
  /\ process_input_threaded (snd (confirm_focus focus_selected))
     = (Warned "Missing Input", snd (confirm_focus focus_selected)).
Proof.
  split; [reflexivity|].
  apply (proj1 (proj2 (placeholders_are_not_input "key" focus_selected offline false
                         "" JNull))).
  reflexivity.
Defined.

(** ** What the workers do to the conversation *)

Lemma same_conversation_refl (s : VoicepalApp) : same_conversation s s.
Proof. unfold same_conversation. repeat split. Qed.

(** X6: when the structured call raises, or returns null or anything else
    that counts as false, the worker changes nothing in the conversation
    and leaves the input box as it is: no pending result, no card, no step.
    The buttons come back unless the scheduled error callback finds its
    exception variable unbound. *)
Theorem failed_thought_changes_nothing
    (json_loads : string -> option json) (key : string) (raw_text : string)
    (s : VoicepalApp) (w : world) (unbound : bool) :
  (forall v, fst (call_gemini_api_structured json_loads key 5 w) = Ret v ->
             truthy v = false) ->
  let s' := snd (_run_thought_processing json_loads key raw_text s w unbound) in
  same_conversation s s'
  /\ input_text s' = input_text s
  /\ thread s' = thread s
  /\ (buttons s' = NORMAL
      \/ (unbound = true /\ buttons s' = buttons s
          /\ exists e, fst (call_gemini_api_structured json_loads key 5 w) = Raise e)).
Proof.
  intros Hfalsy s'. subst s'. unfold _run_thought_processing.
  destruct (fst (call_gemini_api_structured json_loads key 5 w)) as [v|e].
  - rewrite (Hfalsy v eq_refl). simpl.
    split; [unfold same_conversation; simpl; repeat split|]. auto.
  - destruct unbound; simpl.
    + split; [unfold same_conversation; simpl; repeat split|]. repeat split; auto.
      right. repeat split; auto. exists e. reflexivity.
    + split; [unfold same_conversation; simpl; repeat split|]. auto.
Qed.

Lemma failed_thought_changes_nothing_witness :
  (forall v, fst (call_gemini_api_structured sample_loads "key" 5 offline) = Ret v ->
             truthy v = false)
  /\ same_conversation after_thought
       (snd (_run_thought_processing sample_loads "key" "again" after_thought offline false))
  /\ current_step_data
       (snd (_run_thought_processing sample_loads "key" "again" after_thought offline false))
     = three_questions.
Proof.
  assert (H : forall v, fst (call_gemini_api_structured sample_loads "key" 5 offline) = Ret v ->
                        truthy v = false).
  { intros v Hv. vm_compute in Hv. inversion Hv. reflexivity. }
  split; [exact H|].
  split.
  - apply (failed_thought_changes_nothing sample_loads "key" "again" after_thought
             offline false H).
  - reflexivity.
Defined.

Lemma thought_result_state
    (json_loads : string -> option json) (key : string) (raw_text : string)
    (s : VoicepalApp) (w : world) (unbound : bool)
    (fields : list (string * json)) (questions : list json) :
  fst (call_gemini_api_structured json_loads key 5 w) = Ret (JObj fields) ->
  fields <> [] ->
  py_iter (dict_get fields "challenge_questions" (JArr [])) = Ret questions ->
  _run_thought_processing json_loads key raw_text s w unbound
  = (Done,
     set_buttons_state NORMAL
       (with_question_cards questions
          (with_selected_question JNull
             (with_question_cards []
                (with_input_text "Enter your response here..."
                   (with_current_step_data (JObj fields) s)))))).
Proof.
  intros Hcall Hne Hq. unfold _run_thought_processing.
  rewrite Hcall. destruct fields as [|f fields]; [congruence|].
  cbn [truthy]. unfold _update_guided_result, create_question_cards.
  cbn [py_get]. rewrite Hq. reflexivity.
Qed.

(** X7: when the structured call returns a non-empty object, the worker
    makes it the pending result, shows one card per challenge question,
    however many there are, drops any earlier selection, puts the
    placeholder into the input box and enables the buttons; confirmed
    steps, step counter and debate stay as they were. *)
Theorem thought_result_installed
    (json_loads : string -> option json) (key : string) (raw_text : string)
    (s : VoicepalApp) (w : world) (unbound : bool)
    (fields : list (string * json)) (questions : list json) :
  fst (call_gemini_api_structured json_loads key 5 w) = Ret (JObj fields) ->
  fields <> [] ->
  py_iter (dict_get fields "challenge_questions" (JArr [])) = Ret questions ->
  let s' := snd (_run_thought_processing json_loads key raw_text s w unbound) in
  fst (_run_thought_processing json_loads key raw_text s w unbound) = Done
  /\ current_step_data s' = JObj fields
  /\ question_cards s' = questions
  /\ selected_question s' = JNull
  /\ input_text s' = "Enter your response here..."
  /\ buttons s' = NORMAL
  /\ conversation_history s' = conversation_history s
  /\ current_step s' = current_step s
  /\ debate_history s' = debate_history s
  /\ is_debating s' = is_debating s.
Proof.
  intros Hcall Hne Hq s'. subst s'.
  rewrite (thought_result_state json_loads key raw_text s w unbound fields questions
             Hcall Hne Hq).
  simpl. repeat split.
Qed.

Lemma thought_result_installed_witness :
  fst (call_gemini_api_structured sample_loads "key" 5
         (always (response_with_text two_questions_text))) = Ret two_questions
  /\ question_cards
       (snd (_run_thought_processing sample_loads "key" "t" focus_selected
               (always (response_with_text two_questions_text)) false))
     = [JStr "a"; JStr "b"]
  /\ selected_question
       (snd (_run_thought_processing sample_loads "key" "t" focus_selected
               (always (response_with_text two_questions_text)) false))
     = JNull.
Proof.
  split; [reflexivity|].
  pose proof (thought_result_installed sample_loads "key" "t" focus_selected
                (always (response_with_text two_questions_text)) false
                [("corrected_text", JStr "X");
                 ("challenge_questions", JArr [JStr "a"; JStr "b"])]
                [JStr "a"; JStr "b"] eq_refl) as H.
  destruct H as [_ [_ [H1 [H2 _]]]]; [discriminate | reflexivity |].
  split; [exact H1 | exact H2].
Defined.

(** X8: the summary worker never writes to the conversation: whatever the
    key, the network and the pending result, the state after it differs
    from the state before it in the buttons at most. *)
Theorem blog_worker_changes_nothing
    (key : string) (s : VoicepalApp) (w : world) (unbound : bool) :
  let s' := snd (_run_blog_post_generation key s w unbound) in
  same_conversation s s'
  /\ input_text s' = input_text s
  /\ thread s' = thread s.
Proof.
  unfold _run_blog_post_generation.
  repeat break_match; simpl;
    (split; [unfold same_conversation; simpl; repeat split | auto]).
Qed.

(** X9: a rebuttal round.  In a debate of at least two turns, with a
    visible text in the input box that is not the placeholder, Send
    Rebuttal followed by its worker appends exactly two turns: the user's
    stripped text, then an assistant turn whose text is never empty; the
    buttons come back and the input box gets the placeholder.  This holds
    whatever the network does, unless the call raises something other
    than a [ValueError]. *)
Theorem rebuttal_round
    (key : string) (s : VoicepalApp) (w : world) (unbound : bool) :
  1 < List.length (debate_history s) ->
  strip (input_get s) <> "" ->
  strip (input_get s) <> "Enter your counter-argument here..." ->
  (forall e, fst (call_gemini_api_debate key 5 w) = Raise e -> is_ValueError e = true) ->
  let s1 := snd (send_rebuttal_threaded s) in
  let s2 := snd (_run_debate_turn key s1 w unbound) in
  fst (send_rebuttal_threaded s) = Done
  /\ thread s1 = Some JobDebate
  /\ exists reply,
       truthy reply = true
       /\ debate_history s2
          = debate_history s ++
            [{| turn_role := user; turn_text := JStr (strip (input_get s)) |};
             {| turn_role := assistant; turn_text := reply |}]
       /\ buttons s2 = NORMAL
       /\ input_text s2 = "Enter your counter-argument here...".
Proof.
  intros Hlen Hne Hnp Hcall s1 s2. subst s1 s2.
  unfold send_rebuttal_threaded.
  apply Nat.ltb_lt in Hlen. rewrite Hlen.
  apply String.eqb_neq in Hne. apply String.eqb_neq in Hnp.
  rewrite Hne, Hnp. simpl.
  split; [reflexivity|]. split; [reflexivity|].
  unfold _run_debate_turn.
  destruct (fst (call_gemini_api_debate key 5 w)) as [reply|e].
  - destruct (truthy reply) eqn:Htr; simpl.
    + exists reply. rewrite <- app_assoc. repeat split; auto.
    + eexists. rewrite <- app_assoc. repeat split; reflexivity.
  - rewrite (Hcall e eq_refl). simpl.
    eexists. rewrite <- app_assoc. repeat split; reflexivity.
Qed.

Lemma rebuttal_round_witness :
  1 < List.length (debate_history (with_input_text "But yes" (run sample_loads "key"
        (thought_processed ++
         [ClickDebate; ThreadDone (always (response_with_text "No.")) false]))))
  /\ exists reply,
       truthy reply = true
       /\ debate_history
            (snd (_run_debate_turn "key"
                    (snd (send_rebuttal_threaded
                            (with_input_text "But yes" (run sample_loads "key"
                               (thought_processed ++
                                [ClickDebate;
                                 ThreadDone (always (response_with_text "No.")) false])))))
                    offline false))
          = [{| turn_role := user; turn_text := JStr "X" |};
             {| turn_role := assistant; turn_text := JStr "No." |}] ++
            [{| turn_role := user; turn_text := JStr "But yes" |};
             {| turn_role := assistant; turn_text := reply |}]
       /\ buttons
            (snd (_run_debate_turn "key"
                    (snd (send_rebuttal_threaded
                            (with_input_text "But yes" (run sample_loads "key"
                               (thought_processed ++
                                [ClickDebate;
                                 ThreadDone (always (response_with_text "No.")) false])))))
                    offline false)) = NORMAL
       /\ input_text
            (snd (_run_debate_turn "key"
                    (snd (send_rebuttal_threaded
                            (with_input_text "But yes" (run sample_loads "key"
                               (thought_processed ++
                                [ClickDebate;
                                 ThreadDone (always (response_with_text "No.")) false])))))
                    offline false)) = "Enter your counter-argument here...".
Proof.
  split; [vm_compute; lia|].
  apply (rebuttal_round "key"
           (with_input_text "But yes" (run sample_loads "key"
              (thought_processed ++
               [ClickDebate; ThreadDone (always (response_with_text "No.")) false])))
           offline false).
  - vm_compute. lia.
  - vm_compute. discriminate.
  - vm_compute. discriminate.
  - intros e He. vm_compute in He. discriminate.
Defined.

(** ** Further invariants of the event loop *)

(** X10: without a key nothing is ever processed.  With the empty key
    that ships, in every reachable state no result is pending, no card is
    shown, no step is confirmed, the counter is 1 and the debate has never
    been entered; a worker, if one runs, is a thought worker. *)
Theorem nothing_processed_without_key
    (json_loads : string -> option json) (key : string) (s : VoicepalApp) :
  truthy (JStr key) = false ->
  reachable json_loads key s ->
  pristine s.
Proof.
  intros Hkey. revert s. apply reachable_invariant.
  - unfold pristine. simpl. repeat split. left. reflexivity.
  - intros s e H. unfold pristine in H.
    destruct H as [H1 [H2 [H3 [H4 [H5 [H6 [H7 [H8 [H9 H10]]]]]]]]].
    destruct s. simpl in *. subst.
    destruct e; simpl.
    + unfold pristine. simpl. repeat split. exact H10.
    + destruct index; simpl; unfold pristine; simpl; repeat split; exact H10.
    + unfold pristine. simpl. repeat split. exact H10.
    + destruct buttons0; [|unfold pristine; simpl; repeat split; exact H10].
      unfold process_input_threaded. break_match; simpl.
      * unfold pristine. simpl. repeat split. exact H10.
      * unfold pristine. simpl. repeat split. right. eexists. reflexivity.
    + destruct buttons0; unfold pristine; simpl; repeat split; exact H10.
    + destruct buttons0; unfold pristine; simpl; repeat split; exact H10.
    + destruct H10 as [-> | [raw_text ->]].
      * unfold pristine. simpl. repeat split. left. reflexivity.
      * unfold run_thread, _run_thought_processing.
        rewrite (call_structured_without_key json_loads key 5 w Hkey). simpl.
        destruct unbound; unfold pristine; simpl; repeat split; left; reflexivity.
Qed.

Lemma nothing_processed_without_key_witness :
  truthy (JStr API_KEY) = false
  /\ reachable sample_loads API_KEY
       (run sample_loads API_KEY
          [UserTypes "I think people should work less"; ClickProcess;
           ThreadDone (always (response_with_text three_questions_text)) false;
           ClickDebate])
  /\ pristine
       (run sample_loads API_KEY
          [UserTypes "I think people should work less"; ClickProcess;
           ThreadDone (always (response_with_text three_questions_text)) false;
           ClickDebate]).
Proof.
  split; [reflexivity|].
  assert (H : reachable sample_loads API_KEY
       (run sample_loads API_KEY
          [UserTypes "I think people should work less"; ClickProcess;
           ThreadDone (always (response_with_text three_questions_text)) false;
           ClickDebate])).
  { eexists. reflexivity. }
  split; [exact H|].
  apply (nothing_processed_without_key sample_loads API_KEY _ eq_refl H).
Defined.

Lemma same_counts_history_inv (s s' : VoicepalApp) :
  current_step s' = current_step s ->
  conversation_history s' = conversation_history s ->
  history_inv s -> history_inv s'.
Proof. unfold history_inv. intros -> ->. auto. Qed.

Lemma confirm_focus_history_inv (s : VoicepalApp) :
  history_inv s -> history_inv (snd (confirm_focus s)).
Proof.
  intros [Hn [Hc Hf]]. unfold confirm_focus.
  destruct (truthy (selected_question s)) eqn:Hq; simpl; [|repeat split; auto].
  destruct (truthy (current_step_data s)); simpl; [|repeat split; auto].
  destruct (py_get (current_step_data s) "corrected_text" (JStr "N/A"));
    simpl; [|repeat split; auto].
  unfold history_inv. simpl. repeat split.
  - rewrite map_app, length_app, Hn, Hc. simpl List.length. simpl map.
    replace (List.length (conversation_history s) + 1)
      with (S (List.length (conversation_history s))) by lia.
    rewrite seq_S. reflexivity.
  - rewrite length_app. simpl. lia.
  - intros item Hin. apply in_app_or in Hin. destruct Hin as [Hin | [<- | []]].
    + apply Hf. exact Hin.
    + exact Hq.
Qed.

Lemma dispatch_history_inv (json_loads : string -> option json) (api_key : string)
    (s : VoicepalApp) (e : event) :
  history_inv s -> history_inv (dispatch json_loads api_key s e).
Proof.
  intros H. destruct e; simpl.
  - exact H.
  - destruct (nth_error (question_cards s) index); exact H.
  - apply confirm_focus_history_inv. exact H.
  - destruct (buttons s); [|exact H]. destruct (process_command s).
    + unfold process_input_threaded. break_match; exact H.
    + destruct (send_rebuttal_counts s) as [H1 H2].
      apply (same_counts_history_inv s); auto.
  - destruct (buttons s); [|exact H].
    unfold generate_blog_post_threaded. repeat break_match; exact H.
  - destruct (buttons s); [|exact H]. destruct (debate_command s).
    + destruct (start_debate_counts s) as [H1 H2].
      apply (same_counts_history_inv s); auto.
    + unfold history_inv. simpl. repeat split. intros item [].
  - destruct (thread s) as [j|]; [|exact H].
    destruct (run_thread_counts json_loads api_key j s w unbound) as [H1 H2].
    apply (same_counts_history_inv s); auto.
Qed.

Lemma history_inv_reachable
    (json_loads : string -> option json) (api_key : string) (s : VoicepalApp) :
  reachable json_loads api_key s -> history_inv s.
Proof.
  revert s. apply reachable_invariant.
  - unfold history_inv. simpl. repeat split. intros item [].
  - apply dispatch_history_inv.
Qed.

(** X11: in every reachable state the confirmed steps carry the numbers
    1, 2, ..., n in this order, and each of them has a focus question that
    is not empty. *)
Theorem steps_numbered_in_order
    (json_loads : string -> option json) (api_key : string) (s : VoicepalApp) :
  reachable json_loads api_key s ->
  map step (conversation_history s) = seq 1 (List.length (conversation_history s))
  /\ forall item, In item (conversation_history s) ->
       truthy (focus_question item) = true.
Proof.
  intros Hs.
  destruct (history_inv_reachable json_loads api_key s Hs) as [H1 [_ H3]]. auto.
Qed.

Lemma steps_numbered_in_order_witness :
  reachable sample_loads "key" after_confirm
  /\ map step (conversation_history after_confirm)
     = seq 1 (List.length (conversation_history after_confirm)).
Proof.
  assert (H : reachable sample_loads "key" after_confirm).
  { exists (thought_processed ++ [ClickCard 1; ClickConfirm]). reflexivity. }
  split; [exact H|].
  apply (proj1 (steps_numbered_in_order sample_loads "key" after_confirm H)).
Defined.

(** X12: the history is append-only but for the reset.  Whatever the
    state, an event leaves the confirmed steps as they are, or it is the
    click on Confirm and appends one step, or it is the click on the
    Debate button while that is bound to [end_debate] and empties them. *)
Theorem history_append_only
    (json_loads : string -> option json) (api_key : string)
    (s : VoicepalApp) (e : event) :
  let s' := dispatch json_loads api_key s e in
  conversation_history s' = conversation_history s
  \/ (e = ClickConfirm /\ exists item,
        conversation_history s' = conversation_history s ++ [item])
  \/ (e = ClickDebate /\ debate_command s = EndDebate
      /\ conversation_history s' = []).
Proof.
  destruct e; simpl.
  - left. reflexivity.
  - left. destruct (nth_error (question_cards s) index); reflexivity.
  - unfold confirm_focus. repeat break_match; simpl; auto.
    right. left. split; [reflexivity|]. eexists. reflexivity.
  - left. destruct (buttons s); [|reflexivity]. destruct (process_command s).
    + unfold process_input_threaded. break_match; reflexivity.
    + apply send_rebuttal_counts.
  - left. destruct (buttons s); [|reflexivity].
    unfold generate_blog_post_threaded. repeat break_match; reflexivity.
  - destruct (buttons s); [|left; reflexivity].
    destruct (debate_command s) eqn:Hc.
    + left. apply start_debate_counts.
    + right. right. auto.
  - left. destruct (thread s) as [j|]; [|reflexivity].
    apply run_thread_counts.
Qed.

(** *** Modes *)

Ltac crush_handlers :=
  repeat break_match; simpl in *; subst; auto; try discriminate; try congruence.

Lemma job_eq_debate (j : job) : j = JobDebate \/ j <> JobDebate.
Proof. destruct j; [right | right | left]; congruence. Qed.

Lemma create_question_cards_mode (questions : json) (s : VoicepalApp) :
  let s' := snd (create_question_cards questions s) in
  is_debating s' = is_debating s /\ process_command s' = process_command s
  /\ debate_command s' = debate_command s /\ debate_history s' = debate_history s
  /\ thread s' = thread s.
Proof.
  unfold create_question_cards. destruct (py_iter questions); simpl; auto.
Qed.

Lemma update_guided_mode (raw_text : string) (result : json) (s : VoicepalApp) :
  let s' := snd (_update_guided_result raw_text result s) in
  is_debating s' = is_debating s /\ process_command s' = process_command s
  /\ debate_command s' = debate_command s /\ debate_history s' = debate_history s
  /\ thread s' = thread s.
Proof.
  unfold _update_guided_result.
  destruct (py_get result "corrected_text" (JStr "Correction failed."));
    [|simpl; auto].
  destruct (py_get result "challenge_questions" (JArr [])) as [questions|];
    [|simpl; auto].
  match goal with
  | |- context [create_question_cards questions ?x] =>
      pose proof (create_question_cards_mode questions x) as H;
      destruct (create_question_cards questions x) as [o s3]
  end.
  simpl in H. destruct o; simpl; exact H.
Qed.

Lemma quiet_thread_mode (json_loads : string -> option json) (api_key : string)
    (j : job) (s : VoicepalApp) (w : world) (unbound : bool) :
  j <> JobDebate ->
  let s' := snd (run_thread json_loads api_key j s w unbound) in
  is_debating s' = is_debating s /\ process_command s' = process_command s
  /\ debate_command s' = debate_command s /\ debate_history s' = debate_history s
  /\ thread s' = None.
Proof.
  intros Hj. unfold run_thread. destruct j; [| |congruence].
  - unfold _run_thought_processing.
    destruct (fst (call_gemini_api_structured json_loads api_key 5 w)) as [v|e].
    + destruct (truthy v); [|simpl; auto].
      apply (update_guided_mode raw_text v (with_thread None s)).
    + destruct unbound; simpl; auto.
  - unfold _run_blog_post_generation. repeat break_match; simpl; auto.
Qed.

Lemma send_rebuttal_mode (s : VoicepalApp) :
  let s' := snd (send_rebuttal_threaded s) in
  s' = s
  \/ (is_debating s' = is_debating s /\ process_command s' = process_command s
      /\ debate_command s' = debate_command s
      /\ thread s' = Some JobDebate /\ buttons s' = DISABLED).
Proof.
  unfold send_rebuttal_threaded.
  destruct (Nat.ltb 1 (List.length (debate_history s))); simpl.
  - break_match; simpl; auto. right. repeat split.
  - right. repeat split.
Qed.

Lemma dispatch_buttons_follow_mode
    (json_loads : string -> option json) (api_key : string)
    (s : VoicepalApp) (e : event) :
  buttons_follow_mode s -> buttons_follow_mode (dispatch json_loads api_key s e).
Proof.
  intros H. destruct e; simpl.
  - destruct s. exact H.
  - destruct (nth_error (question_cards s) index); [|exact H]. destruct s. exact H.
  - unfold confirm_focus. repeat break_match; exact H.
  - destruct (buttons s) eqn:Hb; [|exact H].
    destruct (process_command s) eqn:Hc.
    + unfold process_input_threaded. break_match; [exact H|]. destruct s. exact H.
    + destruct (send_rebuttal_mode s) as [-> | [H1 [H2 [H3 _]]]]; [exact H|].
      unfold buttons_follow_mode in *. rewrite H1, H2, H3. exact H.
  - destruct (buttons s) eqn:Hb; [|exact H].
    unfold generate_blog_post_threaded. repeat break_match; exact H.
  - destruct (buttons s) eqn:Hb; [|exact H].
    destruct (debate_command s) eqn:Hc.
    + unfold start_debate_mode. repeat break_match; try exact H.
      unfold buttons_follow_mode. simpl. intuition congruence.
    + unfold buttons_follow_mode. simpl. intuition congruence.
  - destruct (thread s) as [j|] eqn:Ht; [|exact H].
    destruct (job_eq_debate j) as [-> | Hj].
    + unfold run_thread, _run_debate_turn.
      destruct (fst (call_gemini_api_debate api_key 5 w)) as [reply|e].
      * destruct s. unfold buttons_follow_mode in *. simpl in *. tauto.
      * destruct (is_ValueError e).
        -- destruct s. unfold buttons_follow_mode in *. simpl in *. tauto.
        -- destruct s. exact H.
    + destruct (quiet_thread_mode json_loads api_key j s w unbound Hj)
        as [H1 [H2 [H3 _]]].
      unfold buttons_follow_mode in *. rewrite H1, H2, H3. exact H.
Qed.

(** *** The window with the microphone on *)

Lemma run_thread_any_thread (json_loads : string -> option json) (api_key : string)
    (j : job) (t : option job) (s : VoicepalApp) (w : world) (unbound : bool) :
  run_thread json_loads api_key j (with_thread t s) w unbound
  = run_thread json_loads api_key j s w unbound.
Proof. destruct s. reflexivity. Qed.

Lemma same_conversation_with_thread (t : option job) (s : VoicepalApp) :
  same_conversation s (with_thread t s).
Proof. unfold same_conversation. simpl. repeat split. Qed.

Lemma same_conversation_with_buttons (b : tk_state) (s : VoicepalApp) :
  same_conversation s (with_buttons b s).
Proof. unfold same_conversation. simpl. repeat split. Qed.

Lemma same_conversation_with_input_text (t : string) (s : VoicepalApp) :
  same_conversation s (with_input_text t s).
Proof. unfold same_conversation. simpl. repeat split. Qed.

(** What reads the conversation only, holds at the start and is kept by
    every event of the window, from whatever state, holds in every state
    the window reaches with the microphone on and workers side by side. *)
Lemma window_dispatch_invariant (json_loads : string -> option json) (api_key : string)
    (P : VoicepalApp -> Prop) :
  (forall s e, P s -> P (dispatch json_loads api_key s e)) ->
  (forall s s', same_conversation s s' -> P s -> P s') ->
  forall p e, P (gui p) -> P (gui (window_dispatch json_loads api_key p e)).
Proof.
  intros Hstep Hsame p e H. destruct e; simpl.
  - apply (Hsame _ _ (same_conversation_with_thread None _)).
    apply Hstep.
    apply (Hsame _ _ (same_conversation_with_thread None _)). exact H.
  - destruct (nth_error (workers p) index) as [j|]; [|exact H]. simpl.
    rewrite <- (run_thread_any_thread json_loads api_key j (Some j)).
    apply (Hstep (with_thread (Some j) (gui p)) (ThreadDone w unbound)).
    apply (Hsame _ _ (same_conversation_with_thread (Some j) _)). exact H.
  - unfold record_input_toggle. destruct (is_recording p); simpl; [exact H|].
    apply (Hsame _ _ (same_conversation_with_input_text "" _)). exact H.
  - destruct (listener p); exact H.
  - destruct (after_calls p); [exact H|].
    unfold process_transcription_from_queue.
    assert (Hb : P (with_buttons NORMAL (gui p))).
    { apply (Hsame _ _ (same_conversation_with_buttons NORMAL _)). exact H. }
    destruct (audio_queue p) as [|[text| | |] rest]; simpl; try exact Hb.
    apply (Hsame _ _ (same_conversation_with_input_text text _)). exact Hb.
Qed.

Lemma window_reachable_invariant (json_loads : string -> option json) (api_key : string)
    (P : VoicepalApp -> Prop) :
  P init ->
  (forall s e, P s -> P (dispatch json_loads api_key s e)) ->
  (forall s s', same_conversation s s' -> P s -> P s') ->
  forall p, window_reachable json_loads api_key p -> P (gui p).
Proof.
  intros Hinit Hstep Hsame p [events ->]. unfold window_run.
  assert (H0 : P (gui window_init)) by exact Hinit.
  generalize dependent window_init.
  induction events as [|e events IH]; intros p0 H0; simpl.
  - exact H0.
  - apply IH. apply window_dispatch_invariant; assumption.
Qed.

(** X13: in every state the window reaches, with the microphone on and
    workers side by side, the Process button sends rebuttals exactly in
    debate mode, and in debate mode the Debate button ends the debate. *)
Theorem buttons_agree_with_mode
    (json_loads : string -> option json) (api_key : string) (p : Window) :
  window_reachable json_loads api_key p ->
  (is_debating (gui p) = true <-> process_command (gui p) = SendRebuttal)
  /\ (is_debating (gui p) = true -> debate_command (gui p) = EndDebate).
Proof.
  apply (window_reachable_invariant json_loads api_key buttons_follow_mode).
  - unfold buttons_follow_mode. simpl. intuition congruence.
  - apply dispatch_buttons_follow_mode.
  - unfold same_conversation, buttons_follow_mode.
    intros s s' [_ [_ [_ [_ [H1 [_ [_ [H2 H3]]]]]]]]. rewrite H1, H2, H3. auto.
Qed.

Lemma buttons_agree_with_mode_witness :
  window_reachable sample_loads "key" two_replies
  /\ (is_debating (gui two_replies) = true
      <-> process_command (gui two_replies) = SendRebuttal)
  /\ (is_debating (gui two_replies) = true
      -> debate_command (gui two_replies) = EndDebate).
Proof.
  assert (H : window_reachable sample_loads "key" two_replies).
  { eexists. reflexivity. }
  split; [exact H|].
  apply (buttons_agree_with_mode sample_loads "key" two_replies H).
Defined.

(** The Debate button may end a debate that is over, and the debate may
    hold a turn outside debate mode: a worker that is still running when
    the debate is ended appends its reply to the emptied debate, and its
    callback binds the button to [end_debate] again. *)
Remark reply_after_the_debate_has_ended :
  is_debating (gui reply_after_end) = false
  /\ process_command (gui reply_after_end) = ProcessInput
  /\ debate_command (gui reply_after_end) = EndDebate
  /\ debate_history (gui reply_after_end)
     = [{| turn_role := assistant; turn_text := JStr "No." |}].
Proof. repeat split. Qed.

(** *** The turns of a debate *)

Lemma quiet_handlers_debate_history (s : VoicepalApp) :
  debate_history (snd (confirm_focus s)) = debate_history s
  /\ debate_history (snd (process_input_threaded s)) = debate_history s
  /\ debate_history (snd (generate_blog_post_threaded s)) = debate_history s.
Proof.
  unfold confirm_focus, process_input_threaded, generate_blog_post_threaded.
  repeat split; repeat break_match; reflexivity.
Qed.

Lemma debate_history_step
    (json_loads : string -> option json) (api_key : string)
    (s : VoicepalApp) (e : event) :
  let s' := dispatch json_loads api_key s e in
  debate_history s' = debate_history s
  \/ (e = ClickProcess /\ 1 < List.length (debate_history s) /\
      exists r, r <> "" /\ r <> "Enter your counter-argument here..."
        /\ debate_history s'
           = debate_history s ++ [{| turn_role := user; turn_text := JStr r |}])
  \/ (e = ClickDebate /\ debate_command s = StartDebate /\
      exists argument, truthy argument = true /\ eq_str argument "N/A" = false
        /\ debate_history s' = [{| turn_role := user; turn_text := argument |}])
  \/ (e = ClickDebate /\ debate_command s = EndDebate /\ debate_history s' = [])
  \/ (thread s = Some JobDebate /\ (exists w unbound, e = ThreadDone w unbound) /\
      exists reply, truthy reply = true
        /\ debate_history s'
           = debate_history s ++ [{| turn_role := assistant; turn_text := reply |}]).
Proof.
  destruct (quiet_handlers_debate_history s) as [Hc [Hp Hb]].
  destruct e; simpl.
  - left. reflexivity.
  - left. destruct (nth_error (question_cards s) index); reflexivity.
  - left. exact Hc.
  - destruct (buttons s); [|left; reflexivity].
    destruct (process_command s); [left; exact Hp|].
    unfold send_rebuttal_threaded.
    destruct (Nat.ltb 1 (List.length (debate_history s))) eqn:Hlen; simpl;
      [|left; reflexivity].
    destruct (String.eqb_spec (strip (input_get s)) "") as [He | Hne];
      simpl; [left; reflexivity|].
    destruct (String.eqb_spec (strip (input_get s)) "Enter your counter-argument here...")
      as [He | Hnp]; simpl; [left; reflexivity|].
    right. left. split; [reflexivity|]. split; [apply Nat.ltb_lt; exact Hlen|].
    exists (strip (input_get s)). auto.
  - left. destruct (buttons s); [exact Hb | reflexivity].
  - destruct (buttons s); [|left; reflexivity].
    destruct (debate_command s) eqn:Hcmd.
    + unfold start_debate_mode.
      destruct (corrected_text_or_none (current_step_data s) JNull) as [argument|];
        [|left; reflexivity].
      destruct (truthy argument) eqn:Htr; simpl; [|left; reflexivity].
      destruct (eq_str argument "N/A") eqn:Hna; simpl; [left; reflexivity|].
      right. right. left. split; [reflexivity|]. split; [reflexivity|].
      exists argument. auto.
    + right. right. right. left. auto.
  - destruct (thread s) as [j|] eqn:Ht; [|left; reflexivity].
    destruct (job_eq_debate j) as [-> | Hj].
    + unfold run_thread, _run_debate_turn.
      destruct (fst (call_gemini_api_debate api_key 5 w)) as [reply|e].
      * right. right. right. right. split; [reflexivity|].
        split; [exists w, unbound; reflexivity|].
        destruct (truthy reply) eqn:Htr; simpl.
        -- exists reply. auto.
        -- eexists. split; [|reflexivity]. reflexivity.
      * destruct (is_ValueError e); [|left; reflexivity].
        right. right. right. right. split; [reflexivity|].
        split; [exists w, unbound; reflexivity|].
        simpl. eexists. split; [|reflexivity]. reflexivity.
    + left. apply (quiet_thread_mode json_loads api_key j s w unbound Hj).
Qed.

(** X14: the debate changes in four ways only.  An event leaves its turns
    as they are; or it is Send Rebuttal in a debate of at least two turns
    and appends the user's visible, non-placeholder text; or it is Start
    Debate and makes a non-empty text other than "N/A" the single opening
    turn; or it is End Debate and empties it; or it is the end of the
    debate worker and appends an assistant turn with a non-empty text. *)
Theorem debate_changes_in_four_ways
    (json_loads : string -> option json) (api_key : string)
    (s : VoicepalApp) (e : event) :
  let s' := dispatch json_loads api_key s e in
  debate_history s' = debate_history s
  \/ (e = ClickProcess /\ 1 < List.length (debate_history s) /\
      exists r, r <> "" /\ r <> "Enter your counter-argument here..."
        /\ debate_history s'
           = debate_history s ++ [{| turn_role := user; turn_text := JStr r |}])
  \/ (e = ClickDebate /\ debate_command s = StartDebate /\
      exists argument, truthy argument = true /\ eq_str argument "N/A" = false
        /\ debate_history s' = [{| turn_role := user; turn_text := argument |}])
  \/ (e = ClickDebate /\ debate_command s = EndDebate /\ debate_history s' = [])
  \/ (thread s = Some JobDebate /\ (exists w unbound, e = ThreadDone w unbound) /\
      exists reply, truthy reply = true
        /\ debate_history s'
           = debate_history s ++ [{| turn_role := assistant; turn_text := reply |}]).
Proof. apply debate_history_step. Qed.

Lemma turns_sound_snoc (turns : list turn) (t : turn) :
  turns_sound turns -> turn_sound (List.length turns) t -> turns_sound (turns ++ [t]).
Proof.
  intros H Ht i t' Hn.
  destruct (Nat.lt_ge_cases i (List.length turns)) as [Hlt | Hge].
  - rewrite nth_error_app1 in Hn by exact Hlt. apply H. exact Hn.
  - rewrite nth_error_app2 in Hn by exact Hge.
    destruct (i - List.length turns) as [|d] eqn:Hd; simpl in Hn.
    + inversion Hn; subst t'. replace i with (List.length turns) by lia. exact Ht.
    + destruct d; discriminate.
Qed.

Lemma turns_sound_nil : turns_sound [].
Proof. intros i t H. destruct i; discriminate. Qed.

Lemma dispatch_turns_sound
    (json_loads : string -> option json) (api_key : string)
    (s : VoicepalApp) (e : event) :
  turns_sound (debate_history s) ->
  turns_sound (debate_history (dispatch json_loads api_key s e)).
Proof.
  intros Hok.
  destruct (debate_history_step json_loads api_key s e)
    as [H | [[_ [Hlen [r [Hne [Hnp H]]]]] | [[_ [_ [a [Htr [Hna H]]]]]
         | [[_ [_ H]] | [Ht [_ [reply [Htr H]]]]]]]];
    rewrite H.
  - exact Hok.
  - apply turns_sound_snoc; [exact Hok|]. unfold turn_sound. simpl. split.
    + discriminate.
    + intros _ C. lia.
  - apply (turns_sound_snoc []); [exact turns_sound_nil|]. unfold turn_sound. simpl.
    split; [discriminate | auto].
  - exact turns_sound_nil.
  - apply turns_sound_snoc; [exact Hok|]. unfold turn_sound. simpl.
    split; [auto | discriminate].
Qed.

(** X15: what the opponent is given and gives.  In every state the window
    reaches, with the microphone on and workers side by side, every turn
    of the assistant has a text that is not empty (a missing reply is
    stored as the text that stands in for it), and a turn of the user that
    opens the debate has a text that is not empty and is not "N/A". *)
Theorem debate_turns_carry_text
    (json_loads : string -> option json) (api_key : string) (p : Window) :
  window_reachable json_loads api_key p ->
  forall i t, nth_error (debate_history (gui p)) i = Some t ->
    (turn_role t = assistant -> truthy (turn_text t) = true)
    /\ (turn_role t = user -> i = 0 ->
        truthy (turn_text t) = true /\ eq_str (turn_text t) "N/A" = false).
Proof.
  intros Hp.
  apply (window_reachable_invariant json_loads api_key
           (fun s => turns_sound (debate_history s))).
  - exact turns_sound_nil.
  - apply dispatch_turns_sound.
  - unfold same_conversation.
    intros s s' [_ [_ [_ [_ [_ [H _]]]]]]. rewrite H. auto.
  - exact Hp.
Qed.

Lemma debate_turns_carry_text_witness :
  window_reachable sample_loads "key" two_replies
  /\ nth_error (debate_history (gui two_replies)) 2
     = Some {| turn_role := assistant; turn_text := JStr "No." |}
  /\ truthy (JStr "No.") = true.
Proof.
  assert (H : window_reachable sample_loads "key" two_replies).
  { eexists. reflexivity. }
  split; [exact H|]. split; [reflexivity|].
  apply (proj1 (debate_turns_carry_text sample_loads "key" two_replies H 2
                  {| turn_role := assistant; turn_text := JStr "No." |} eq_refl)).
  reflexivity.
Defined.

(** *** The selection *)

Lemma same_selection (s s' : VoicepalApp) :
  selected_question s' = selected_question s ->
  question_cards s' = question_cards s ->
  selection_inv s -> selection_inv s'.
Proof. unfold selection_inv. intros -> ->. auto. Qed.

Lemma create_question_cards_selection (questions : json) (s : VoicepalApp) :
  selection_inv (snd (create_question_cards questions s)).
Proof.
  unfold create_question_cards, selection_inv.
  destruct (py_iter questions); simpl; auto.
Qed.

Lemma update_guided_selection (raw_text : string) (result : json) (s : VoicepalApp) :
  selection_inv s -> selection_inv (snd (_update_guided_result raw_text result s)).
Proof.
  intros H. unfold _update_guided_result.
  destruct (py_get result "corrected_text" (JStr "Correction failed."));
    [|exact H].
  destruct (py_get result "challenge_questions" (JArr [])) as [questions|];
    [|exact H].
  match goal with
  | |- context [create_question_cards questions ?x] =>
      pose proof (create_question_cards_selection questions x) as Hc;
      destruct (create_question_cards questions x) as [o s3]
  end.
  simpl in Hc. destruct o; exact Hc.
Qed.

Lemma dispatch_selection_inv (json_loads : string -> option json) (api_key : string)
    (s : VoicepalApp) (e : event) :
  selection_inv s -> selection_inv (dispatch json_loads api_key s e).
Proof.
  intros H. destruct e; simpl.
  - exact H.
  - destruct (nth_error (question_cards s) index) as [q|] eqn:Hn; [|exact H].
    right. simpl. apply (nth_error_In _ _ Hn).
  - unfold confirm_focus. repeat break_match; simpl; auto. left. reflexivity.
  - destruct (buttons s); [|exact H]. destruct (process_command s).
    + unfold process_input_threaded. break_match; exact H.
    + unfold send_rebuttal_threaded. repeat break_match; exact H.
  - destruct (buttons s); [|exact H].
    unfold generate_blog_post_threaded. repeat break_match; exact H.
  - destruct (buttons s); [|exact H]. destruct (debate_command s).
    + unfold start_debate_mode, send_rebuttal_threaded. repeat break_match; exact H.
    + left. reflexivity.
  - destruct (thread s) as [j|]; [|exact H].
    unfold run_thread. destruct j.
    + unfold _run_thought_processing.
      destruct (fst (call_gemini_api_structured json_loads api_key 5 w)) as [v|e].
      * destruct (truthy v); [|exact H].
        apply update_guided_selection. exact H.
      * destruct unbound; exact H.
    + unfold _run_blog_post_generation. repeat break_match; exact H.
    + unfold _run_debate_turn. repeat break_match; exact H.
Qed.

(** X16: a focus is always one of the questions on display.  In every
    reachable state the selection is empty or the text of one of the
    cards, so the focus question of a step that Confirm appends was shown
    on a card when it was confirmed. *)
Theorem focus_is_a_displayed_question
    (json_loads : string -> option json) (api_key : string) (s : VoicepalApp) :
  reachable json_loads api_key s ->
  (selected_question s = JNull \/ In (selected_question s) (question_cards s))
  /\ (fst (confirm_focus s) = Done ->
      exists item,
        conversation_history (snd (confirm_focus s)) = conversation_history s ++ [item]
        /\ In (focus_question item) (question_cards s)).
Proof.
  intros Hs.
  assert (H : selection_inv s).
  { revert s Hs. apply reachable_invariant.
    - left. reflexivity.
    - apply dispatch_selection_inv. }
  split; [exact H|].
  unfold confirm_focus.
  destruct (truthy (selected_question s)) eqn:Hq; simpl; [|discriminate].
  destruct (truthy (current_step_data s)); simpl; [|discriminate].
  destruct (py_get (current_step_data s) "corrected_text" (JStr "N/A"));
    simpl; [|discriminate].
  intros _. eexists. split; [reflexivity|]. simpl.
  destruct H as [H | H]; [|exact H].
  rewrite H in Hq. discriminate.
Qed.

Lemma focus_is_a_displayed_question_witness :
  reachable sample_loads "key" focus_selected
  /\ fst (confirm_focus focus_selected) = Done
  /\ exists item,
       conversation_history (snd (confirm_focus focus_selected))
         = conversation_history focus_selected ++ [item]
       /\ In (focus_question item) (question_cards focus_selected).
Proof.
  assert (H : reachable sample_loads "key" focus_selected).
  { exists (thought_processed ++ [ClickCard 1]). reflexivity. }
  split; [exact H|]. split; [reflexivity|].
  apply (proj2 (focus_is_a_displayed_question sample_loads "key" focus_selected H)).
  reflexivity.
Defined.

(** *** A worker that dies *)

Lemma stuck_step (json_loads : string -> option json) (api_key : string)
    (s : VoicepalApp) (e : event) :
  thread s = None -> buttons s = DISABLED ->
  let s' := dispatch json_loads api_key s e in
  thread s' = None /\ buttons s' = DISABLED
  /\ debate_history s' = debate_history s /\ is_debating s' = is_debating s.
Proof.
  intros Ht Hb. destruct e; simpl; try rewrite Hb; try rewrite Ht; auto.
  - destruct (nth_error (question_cards s) index); simpl; auto.
  - unfold confirm_focus. repeat break_match; simpl; auto.
Qed.

Lemma window_stuck_step (json_loads : string -> option json) (api_key : string)
    (p : Window) (e : window_event) :
  workers p = [] -> buttons (gui p) = DISABLED -> e <> AfterCall ->
  let p' := window_dispatch json_loads api_key p e in
  workers p' = [] /\ buttons (gui p') = DISABLED
  /\ debate_history (gui p') = debate_history (gui p)
  /\ is_debating (gui p') = is_debating (gui p).
Proof.
  intros Hw Hb He. destruct e; simpl.
  - destruct (stuck_step json_loads api_key (with_thread None (gui p)) e)
      as [H1 [H2 [H3 H4]]]; [reflexivity | exact Hb |].
    unfold started. rewrite H1, Hw. simpl. auto.
  - rewrite Hw. destruct index; simpl; auto.
  - unfold record_input_toggle. destruct (is_recording p); simpl; auto.
  - destruct (listener p); simpl; auto.
  - congruence.
Qed.

Lemma window_stuck (json_loads : string -> option json) (api_key : string)
    (events : list window_event) : forall p,
  workers p = [] -> buttons (gui p) = DISABLED ->
  Forall (fun e => e <> AfterCall) events ->
  let p' := fold_left (window_dispatch json_loads api_key) events p in
  workers p' = [] /\ buttons (gui p') = DISABLED
  /\ debate_history (gui p') = debate_history (gui p)
  /\ is_debating (gui p') = is_debating (gui p).
Proof.
  induction events as [|e events IH]; intros p Hw Hb Hev; simpl.
  - auto.
  - inversion Hev as [|e' events' He Hrest]; subst.
    destruct (window_stuck_step json_loads api_key p e Hw Hb He) as [H1 [H2 [H3 H4]]].
    destruct (IH _ H1 H2 Hrest) as [H5 [H6 [H7 H8]]].
    repeat split; congruence.
Qed.

(** X17: a debate worker that dies leaves the window stuck until a
    transcription arrives.  When the buttons are disabled, the debate
    worker is the only worker, and its chat call raises anything but a
    [ValueError] (a response body of the wrong shape does), then no turn is
    added, and whatever happens next, short of a call of
    [process_transcription_from_queue], the buttons stay disabled, no
    worker runs, the debate keeps its turns and the mode stays what it
    was: neither a rebuttal nor End Debate can be clicked. *)
Theorem dead_debate_worker_blocks_the_window
    (json_loads : string -> option json) (api_key : string)
    (p : Window) (w : world) (unbound : bool) (e : exn)
    (events : list window_event) :
  workers p = [JobDebate] ->
  buttons (gui p) = DISABLED ->
  fst (call_gemini_api_debate api_key 5 w) = Raise e ->
  is_ValueError e = false ->
  Forall (fun ev => ev <> AfterCall) events ->
  let p1 := window_dispatch json_loads api_key p (WorkerDone 0 w unbound) in
  let p' := fold_left (window_dispatch json_loads api_key) events p1 in
  debate_history (gui p1) = debate_history (gui p)
  /\ workers p' = []
  /\ buttons (gui p') = DISABLED
  /\ debate_history (gui p') = debate_history (gui p)
  /\ is_debating (gui p') = is_debating (gui p).
Proof.
  intros Hw Hb Hcall He Hev p1 p'.
  assert (H1 : gui p1 = with_thread None (gui p) /\ workers p1 = []).
  { subst p1. simpl. rewrite Hw. simpl. unfold run_thread, _run_debate_turn.
    rewrite Hcall, He. split; reflexivity. }
  destruct H1 as [Hg Hw1].
  destruct (window_stuck json_loads api_key events p1) as [H2 [H3 [H4 H5]]].
  - exact Hw1.
  - rewrite Hg. exact Hb.
  - exact Hev.
  - subst p'. rewrite Hg in *. simpl in *. repeat split; congruence.
Qed.

Lemma dead_debate_worker_blocks_the_window_witness :
  workers first_worker_running = [JobDebate]
  /\ buttons (gui first_worker_running) = DISABLED
  /\ fst (call_gemini_api_debate "key" 5 (always response_without_candidates))
     = Raise IndexError
  /\ buttons
       (gui (fold_left (window_dispatch sample_loads "key")
               [Gui (UserTypes "But yes"); Gui ClickProcess; Gui ClickDebate;
                PhraseHeard (Recognized "hm")]
               (window_dispatch sample_loads "key" first_worker_running
                  (WorkerDone 0 (always response_without_candidates) false))))
     = DISABLED
  /\ debate_history
       (gui (fold_left (window_dispatch sample_loads "key")
               [Gui (UserTypes "But yes"); Gui ClickProcess; Gui ClickDebate;
                PhraseHeard (Recognized "hm")]
               (window_dispatch sample_loads "key" first_worker_running
                  (WorkerDone 0 (always response_without_candidates) false))))
     = debate_history (gui first_worker_running).
Proof.
  split; [reflexivity|]. split; [reflexivity|]. split; [reflexivity|].
  assert (Hev : Forall (fun ev => ev <> AfterCall)
                  [Gui (UserTypes "But yes"); Gui ClickProcess; Gui ClickDebate;
                   PhraseHeard (Recognized "hm")]).
  { repeat constructor; discriminate. }
  pose proof (dead_debate_worker_blocks_the_window sample_loads "key"
                first_worker_running
                (always response_without_candidates) false IndexError
                [Gui (UserTypes "But yes"); Gui ClickProcess; Gui ClickDebate;
                 PhraseHeard (Recognized "hm")]
                eq_refl eq_refl eq_refl eq_refl Hev) as [_ [_ [H1 [H2 _]]]].
  split; [exact H1 | exact H2].
Defined.

(** ** The prompt of the summary *)

Lemma fold_left_append_blocks (f : history_item -> string)
    (items : list history_item) : forall start,
  fold_left (fun text item => String.append text (f item)) items start
  = String.append start (concat_all (map f items)).
Proof.
  induction items as [|item items IH]; intros start; simpl.
  - rewrite append_empty. reflexivity.
  - rewrite IH, append_assoc. reflexivity.
Qed.

Lemma map_by_number {B : Type} (f : nat -> history_item -> B)
    (items : list history_item) : forall numbers,
  map step items = numbers ->
  map (fun item => f (step item) item) items
  = map (fun p => f (fst p) (snd p)) (combine numbers items).
Proof.
  induction items as [|item items IH]; intros numbers H; simpl in *.
  - subst numbers. reflexivity.
  - subst numbers. simpl. rewrite (IH (map step items) eq_refl). reflexivity.
Qed.

Lemma fold_left_ext_in_list {A B : Type} (f g : A -> B -> A) (items : list B) :
  (forall a b, f a b = g a b) ->
  forall start, fold_left f items start = fold_left g items start.
Proof.
  intros H. induction items as [|b items IH]; intros start; simpl.
  - reflexivity.
  - rewrite H. apply IH.
Qed.

(** X18: the summary prompt follows the history.  In every reachable
    state with a pending result that is absent or an object, the text sent
    for the summary is the header, then the two lines of each confirmed
    step in order, numbered 1, 2, ..., n, and then, when the pending
    result has a corrected text that is neither empty nor "N/A", one line
    for it with the next number, n + 1. *)
Theorem summary_prompt_layout
    (py_repr : json -> string)
    (json_loads : string -> option json) (api_key : string) (s : VoicepalApp) :
  reachable json_loads api_key s ->
  let n := List.length (conversation_history s) in
  let steps := String.append transcript_header
                 (concat_all (numbered_blocks py_repr (conversation_history s))) in
  (current_step_data s = JNull -> conversation_text py_repr s = Ret steps)
  /\ (forall fields final_thought,
        current_step_data s = JObj fields -> fields <> [] ->
        dict_get fields "corrected_text" (JStr "N/A") = final_thought ->
        conversation_text py_repr s
        = Ret (if truthy final_thought && negb (eq_str final_thought "N/A")
               then String.append steps (final_line py_repr (n + 1) final_thought)
               else steps)).
Proof.
  intros Hs n steps.
  destruct (history_inv_reachable json_loads api_key s Hs) as [Hnum [Hcount _]].
  assert (Htext :
    fold_left
      (fun text item =>
         String.append (String.append text (thought_line py_repr (step item) item))
                       (question_line py_repr (step item) item))
      (conversation_history s) transcript_header = steps).
  { subst steps. unfold numbered_blocks.
    rewrite <- (map_by_number
                  (fun number item =>
                     String.append (thought_line py_repr number item)
                                   (question_line py_repr number item))
                  (conversation_history s) _ Hnum).
    rewrite <- fold_left_append_blocks.
    apply fold_left_ext_in_list.
    intros text item. apply append_assoc. }
  unfold conversation_text. rewrite Htext. split.
  - intros Hp. rewrite Hp. reflexivity.
  - intros fields final_thought Hp Hne Hget. rewrite Hp.
    destruct fields as [|f fields]; [congruence|].
    unfold corrected_text_or_none. cbn [truthy py_get bind].
    rewrite Hget, Hcount. reflexivity.
Qed.

Lemma summary_prompt_layout_witness :
  reachable sample_loads "key" after_confirm
  /\ current_step_data after_confirm = JNull
  /\ conversation_text (fun _ => "") after_confirm
     = Ret (String.append transcript_header
              (concat_all (numbered_blocks (fun _ => "")
                             (conversation_history after_confirm)))).
Proof.
  assert (H : reachable sample_loads "key" after_confirm).
  { exists (thought_processed ++ [ClickCard 1; ClickConfirm]). reflexivity. }
  split; [exact H|]. split; [reflexivity|].
  apply (proj1 (summary_prompt_layout (fun _ => "") sample_loads "key" after_confirm H)).
  reflexivity.
Defined.

(** ** Whole rounds *)



(** X20: a whole guided round.  From a reachable state with enabled
    buttons in the guided mode and a visible, non-placeholder text in the
    input box: Process, a structured result that is a non-empty object, a
    click on one of its questions that is not empty, and Confirm append
    exactly one step, numbered one past the steps so far, with the
    corrected text of the result and the clicked question; after it
    nothing is pending or selected, no card is left and the counter has
    moved on by one. *)
Theorem guided_round
    (json_loads : string -> option json) (key : string) (s : VoicepalApp)
    (w : world) (unbound : bool)
    (fields : list (string * json)) (questions : list json)
    (index : nat) (question : json) :
  reachable json_loads key s ->
  buttons s = NORMAL -> process_command s = ProcessInput ->
  strip (input_get s) <> "" ->
  (forall p, In p placeholders -> prefix p (strip (input_get s)) = false) ->
  fst (call_gemini_api_structured json_loads key 5 w) = Ret (JObj fields) ->
  fields <> [] ->
  py_iter (dict_get fields "challenge_questions" (JArr [])) = Ret questions ->
  nth_error questions index = Some question ->
  truthy question = true ->
  let s' := fold_left (dispatch json_loads key)
              [ClickProcess; ThreadDone w unbound; ClickCard index; ClickConfirm] s in
  conversation_history s'
  = conversation_history s ++
    [{| step := List.length (conversation_history s) + 1;
        thought := dict_get fields "corrected_text" (JStr "N/A");
        focus_question := question |}]
  /\ current_step s' = current_step s + 1
  /\ current_step_data s' = JNull
  /\ selected_question s' = JNull
  /\ question_cards s' = []
  /\ buttons s' = NORMAL
  /\ debate_history s' = debate_history s.
Proof.
  intros Hs Hb Hc Hne Hnp Hcall Hf Hq Hn Htr s'.
  destruct (history_inv_reachable json_loads key s Hs) as [_ [Hcount _]].
  assert (H1 : dispatch json_loads key s ClickProcess
               = start_thread (JobThought (strip (input_get s)))
                   (set_buttons_state DISABLED s)).
  { simpl. rewrite Hb, Hc. unfold process_input_threaded.
    apply String.eqb_neq in Hne. rewrite Hne.
    rewrite (Hnp "Start a new thought here..."),
            (Hnp "Enter your response here..."),
            (Hnp "Enter your counter-argument here...");
      simpl; auto. }
  subst s'. cbn [fold_left]. rewrite H1.
  cbn [dispatch start_thread with_thread thread].
  unfold run_thread.
  rewrite (thought_result_state json_loads key _ _ w unbound fields questions
             Hcall Hf Hq).
  cbn [snd dispatch question_cards set_buttons_state with_buttons with_question_cards].
  rewrite Hn. unfold select_question, confirm_focus.
  cbn [selected_question current_step_data with_selected_question
       with_question_cards with_buttons with_input_text with_current_step_data
       with_thread set_buttons_state].
  rewrite Htr. destruct fields as [|f fields]; [congruence|].
  cbn [truthy negb orb py_get]. simpl. rewrite Hcount. repeat split.
Qed.

Lemma guided_round_witness :
  reachable sample_loads "key" (with_input_text "And rest more" after_confirm)
  /\ conversation_history
       (fold_left (dispatch sample_loads "key")
          [ClickProcess;
           ThreadDone (always (response_with_text two_questions_text)) false;
           ClickCard 0; ClickConfirm]
          (with_input_text "And rest more" after_confirm))
     = conversation_history (with_input_text "And rest more" after_confirm) ++
       [{| step := List.length
                     (conversation_history (with_input_text "And rest more" after_confirm))
                   + 1;
           thought := JStr "X";
           focus_question := JStr "a" |}].
Proof.
  assert (H : reachable sample_loads "key" (with_input_text "And rest more" after_confirm)).
  { exists (thought_processed ++ [ClickCard 1; ClickConfirm; UserTypes "And rest more"]).
    reflexivity. }
  split; [exact H|].
  apply (guided_round sample_loads "key" (with_input_text "And rest more" after_confirm)
           (always (response_with_text two_questions_text)) false
           [("corrected_text", JStr "X");
            ("challenge_questions", JArr [JStr "a"; JStr "b"])]
           [JStr "a"; JStr "b"] 0 (JStr "a") H).
  - reflexivity.
  - reflexivity.
  - vm_compute. discriminate.
  - intros p [<- | [<- | [<- | []]]]; reflexivity.
  - reflexivity.
  - discriminate.
  - reflexivity.
  - reflexivity.
  - reflexivity.
Defined.
